(** * Verification of the mixture ingestion pipeline
    (src/HeeJoon/src/data/mixture_ingest.py).

    Shallow embedding of the pagination collector [fetch_all_from_api],
    the record normaliser [clean_record] with [_parse_date_yyyymmdd],
    the batched writer [upsert_to_supabase] and the configuration guard of
    [fetch_mixture_data]. *)

From Stdlib Require Import ZArith Lia String Ascii.
From stdpp Require Import base gmap list.

Open Scope Z_scope.

(** ** Python strings

    A Python [str] is a sequence of Unicode code points. *)
Abbreviation pystr := (list N).

(** ASCII literal to code points (all column names are ASCII). *)
Definition u (s : string) : pystr :=
  map N_of_ascii (list_ascii_of_string s).

(** Code points for which CPython's [str.isdigit] holds (Unicode
    Numeric_Type Digit or Decimal), as inclusive ranges. *)
Definition digit_ranges : list (N * N) :=
  [(48,57); (178,179); (185,185); (1632,1641); (1776,1785); (1984,1993);
   (2406,2415); (2534,2543); (2662,2671); (2790,2799); (2918,2927);
   (3046,3055); (3174,3183); (3302,3311); (3430,3439); (3558,3567);
   (3664,3673); (3792,3801); (3872,3881); (4160,4169); (4240,4249);
   (4969,4977); (6112,6121); (6160,6169); (6470,6479); (6608,6618);
   (6784,6793); (6800,6809); (6992,7001); (7088,7097); (7232,7241);
   (7248,7257); (8304,8304); (8308,8313); (8320,8329); (9312,9320);
   (9332,9340); (9352,9360); (9450,9450); (9461,9469); (9471,9471);
   (10102,10110); (10112,10120); (10122,10130); (42528,42537);
   (43216,43225); (43264,43273); (43472,43481); (43504,43513);
   (43600,43609); (44016,44025); (65296,65305); (66720,66729);
   (68160,68163); (68912,68921); (69216,69224); (69714,69722);
   (69734,69743); (69872,69881); (69942,69951); (70096,70105);
   (70384,70393); (70736,70745); (70864,70873); (71248,71257);
   (71360,71369); (71472,71481); (71904,71913); (72016,72025);
   (72784,72793); (73040,73049); (73120,73129); (92768,92777);
   (92864,92873); (93008,93017); (120782,120831); (123200,123209);
   (123632,123641); (125264,125273); (127232,127242); (130032,130041)]%N.

(** Code points for which CPython's [str.isspace] holds. *)
Definition space_ranges : list (N * N) :=
  [(9,13); (28,32); (133,133); (160,160); (5760,5760); (8192,8202);
   (8232,8233); (8239,8239); (8287,8287); (12288,12288)]%N.

Definition in_ranges (rs : list (N * N)) (c : N) : bool :=
  existsb (fun '(lo, hi) => (lo <=? c)%N && (c <=? hi)%N) rs.

Definition is_digit_cp : N -> bool := in_ranges digit_ranges.
Definition is_space_cp : N -> bool := in_ranges space_ranges.

(** [s.isdigit()]: non-empty and every character a digit. *)
Definition py_isdigit (s : pystr) : bool :=
  match s with
  | [] => false
  | _ => forallb is_digit_cp s
  end.

Fixpoint lstrip (s : pystr) : pystr :=
  match s with
  | c :: s' => if is_space_cp c then lstrip s' else s
  | [] => []
  end.

(** [s.strip()] with no argument: remove leading and trailing whitespace. *)
Definition py_strip (s : pystr) : pystr := rev (lstrip (rev (lstrip s))).

(** [str.lower()] / [str.upper()]; the code applies them only to the ASCII
    column names, where they act on the letters A-Z / a-z. *)
Definition ascii_lower_cp (c : N) : N :=
  if ((65 <=? c) && (c <=? 90))%N then (c + 32)%N else c.
Definition ascii_upper_cp (c : N) : N :=
  if ((97 <=? c) && (c <=? 122))%N then (c - 32)%N else c.
Definition py_lower (s : pystr) : pystr := map ascii_lower_cp s.
Definition py_upper (s : pystr) : pystr := map ascii_upper_cp s.

(** Decimal rendering of an integer, as [str(int)]. *)
Fixpoint n_digits (fuel : nat) (n : N) (acc : pystr) : pystr :=
  match fuel with
  | O => acc
  | S f =>
      let acc' := (48 + N.modulo n 10)%N :: acc in
      if (n <? 10)%N then acc' else n_digits f (N.div n 10) acc'
  end.

Definition n_to_pystr (n : N) : pystr := n_digits (S (N.size_nat n)) n [].

Definition z_to_pystr (z : Z) : pystr :=
  if z <? 0 then 45%N :: n_to_pystr (Z.to_N (- z)) else n_to_pystr (Z.to_N z).

(** ** Field values of a raw record

    The upstream fields carry JSON scalars: null, booleans, integers and
    strings (nested arrays or objects and floats are outside this model). *)
Inductive scalar :=
| SNone
| SBool (b : bool)
| SInt (z : Z)
| SStr (s : pystr).

#[global] Instance scalar_eq_dec : EqDecision scalar.
Proof. solve_decision. Defined.

(** Python's [==] on these values; [bool] is a subclass of [int], so
    [False == 0] and [True == 1]. *)
Definition num_of (v : scalar) : option Z :=
  match v with
  | SBool b => Some (if b then 1 else 0)
  | SInt z => Some z
  | _ => None
  end.

Definition py_eq (a b : scalar) : bool :=
  match a, b with
  | SNone, SNone => true
  | SStr s, SStr t => bool_decide (s = t)
  | _, _ =>
      match num_of a, num_of b with
      | Some x, Some y => x =? y
      | _, _ => false
      end
  end.

(** [x in (t1, ..., tn)]. *)
Definition py_in (v : scalar) (ts : list scalar) : bool :=
  existsb (py_eq v) ts.

(** Truth value ([not value]). *)
Definition py_truthy (v : scalar) : bool :=
  match v with
  | SNone => false
  | SBool b => b
  | SInt z => negb (z =? 0)
  | SStr s => negb (bool_decide (s = []))
  end.

(** [str(value)]. *)
Definition py_str (v : scalar) : pystr :=
  match v with
  | SNone => u "None"
  | SBool true => u "True"
  | SBool false => u "False"
  | SInt z => z_to_pystr z
  | SStr s => s
  end.

(** A raw record: a Python dict from field names to values. *)
Abbreviation raw_record := (gmap pystr scalar).

(** Values of a normalised record. *)
Inductive outval :=
| OStr (s : pystr)
| ONone
| OBool (b : bool).

#[global] Instance outval_eq_dec : EqDecision outval.
Proof. solve_decision. Defined.

Abbreviation out_record := (gmap pystr outval).

(** ** [MIXTURE_COLUMNS] *)
Definition MIXTURE_COLUMNS : list pystr :=
  map u ["TYPE_NAME"; "MIX_TYPE"; "INGR_CODE"; "INGR_ENG_NAME";
         "INGR_KOR_NAME"; "MIX"; "ORI"; "CLASS"; "MIXTURE_MIX_TYPE";
         "MIXTURE_INGR_CODE"; "MIXTURE_INGR_ENG_NAME";
         "MIXTURE_INGR_KOR_NAME"; "MIXTURE_MIX"; "MIXTURE_ORI";
         "MIXTURE_CLASS"; "NOTIFICATION_DATE"; "PROHBT_CONTENT"; "REMARK";
         "DEL_YN"]%string.

Definition NOTIFICATION_DATE : pystr := u "NOTIFICATION_DATE".
Definition DEL_YN : pystr := u "DEL_YN".

(** The Korean token "정상" (U+C815 U+C0C1). *)
Definition normal_token : pystr := [0xC815; 0xC0C1]%N.

(** ** [_parse_date_yyyymmdd] *)
Definition _parse_date_yyyymmdd (value : scalar) : option pystr :=
  if negb (py_truthy value) then None
  else
    let s := py_strip (py_str value) in
    if (Nat.eqb (length s) 8) && py_isdigit s then
      Some (take 4 s ++ u "-" ++ take 2 (drop 4 s) ++ u "-" ++ take 2 (drop 6 s))
    else Some s.

(** ** [clean_record] *)

(** Lookup of one column: exact name, then lower case, then upper case. *)
Definition resolve (raw : raw_record) (col : pystr) : scalar :=
  match raw !! col with
  | Some v => v
  | None =>
      match raw !! py_lower col with
      | Some v => v
      | None =>
          match raw !! py_upper col with
          | Some v => v
          | None => SNone
          end
      end
  end.

Definition del_yn_falsy : list scalar :=
  [SBool false; SStr (u "f"); SStr (u "false"); SStr (u "False");
   SStr (u "N"); SStr (u "n"); SStr (u "0"); SInt 0].

Definition clean_value (col : pystr) (val : scalar) : outval :=
  if bool_decide (col = NOTIFICATION_DATE) then
    match _parse_date_yyyymmdd val with
    | Some s => OStr s
    | None => ONone
    end
  else if bool_decide (col = DEL_YN) then
    if py_eq val (SStr normal_token) || py_in val del_yn_falsy
    then OBool false else OBool true
  else
    match val with
    | SNone => OStr []
    | _ => OStr (py_strip (py_str val))
    end.

Definition clean_record (raw : raw_record) : out_record :=
  fold_left (fun out col => <[col := clean_value col (resolve raw col)]> out)
    MIXTURE_COLUMNS ∅.

Example parse_date_ex1 :
  _parse_date_yyyymmdd (SStr (u "20230115")) = Some (u "2023-01-15").
Proof. reflexivity. Qed.

Example parse_date_ex2 :
  _parse_date_yyyymmdd (SInt 20230115) = Some (u "2023-01-15").
Proof. reflexivity. Qed.

Example z_to_pystr_ex : z_to_pystr (-120) = u "-120" ∧ z_to_pystr 0 = u "0".
Proof. split; reflexivity. Qed.

(** ** General facts about [clean_record] *)

Lemma fold_insert_lookup (f : pystr -> outval) (cols : list pystr)
    (m : out_record) (k : pystr) :
  fold_left (fun out c => <[c := f c]> out) cols m !! k =
  if bool_decide (k ∈ cols) then Some (f k) else m !! k.
Proof.
  revert m. induction cols as [|c cols IH]; intro m.
  - cbn [fold_left]. rewrite bool_decide_false; [done | set_solver].
  - cbn [fold_left]. rewrite IH, lookup_insert.
    repeat case_decide; repeat case_bool_decide; subst;
      try done; set_solver.
Qed.

Lemma clean_record_lookup (raw : raw_record) (k : pystr) :
  clean_record raw !! k =
  if bool_decide (k ∈ MIXTURE_COLUMNS)
  then Some (clean_value k (resolve raw k)) else None.
Proof.
  unfold clean_record.
  rewrite (fold_insert_lookup (fun c => clean_value c (resolve raw c))).
  by rewrite lookup_empty.
Qed.

Lemma MIXTURE_COLUMNS_NoDup : NoDup MIXTURE_COLUMNS.
Proof. apply (bool_decide_unpack _). vm_compute. reflexivity. Qed.

Lemma MIXTURE_COLUMNS_length : length MIXTURE_COLUMNS = 19%nat.
Proof. reflexivity. Qed.

Lemma NOTIFICATION_DATE_col : NOTIFICATION_DATE ∈ MIXTURE_COLUMNS.
Proof. apply (bool_decide_unpack _). vm_compute. reflexivity. Qed.

Lemma DEL_YN_col : DEL_YN ∈ MIXTURE_COLUMNS.
Proof. apply (bool_decide_unpack _). vm_compute. reflexivity. Qed.

Lemma NOTIFICATION_DATE_DEL_YN : NOTIFICATION_DATE ≠ DEL_YN.
Proof. vm_compute. congruence. Qed.

(** Value type of a normalised column: [NOTIFICATION_DATE] is a string or
    null, [DEL_YN] a boolean, every other column a string. *)
Definition out_type_ok (k : pystr) (v : outval) : Prop :=
  if bool_decide (k = NOTIFICATION_DATE) then
    match v with OStr _ | ONone => True | OBool _ => False end
  else if bool_decide (k = DEL_YN) then
    match v with OBool _ => True | _ => False end
  else
    match v with OStr _ => True | _ => False end.

Lemma clean_value_type (k : pystr) (val : scalar) :
  out_type_ok k (clean_value k val).
Proof.
  unfold out_type_ok, clean_value.
  case_bool_decide; [destruct (_parse_date_yyyymmdd val); exact I |].
  case_bool_decide; [destruct (_ || _); exact I |].
  destruct val; exact I.
Qed.

(** The Python falsy-token set of [DEL_YN], with the Korean "normal" token. *)
Definition del_yn_false_tokens : list scalar :=
  SStr normal_token :: del_yn_falsy.

Lemma del_yn_test_iff (v : scalar) :
  (py_eq v (SStr normal_token) || py_in v del_yn_falsy) = true <->
  v ∈ del_yn_false_tokens.
Proof.
  unfold del_yn_false_tokens, del_yn_falsy, py_in. simpl.
  rewrite !elem_of_cons, elem_of_nil.
  destruct v as [|b|z|s]; simpl.
  - split; [discriminate | intros H; repeat destruct H as [H|H]; first [discriminate | contradiction]].
  - destruct b; simpl.
    + split; [discriminate | intros H; repeat destruct H as [H|H]; first [discriminate | contradiction]].
    + split; [intros _; auto 10 | reflexivity].
  - destruct (Z.eqb_spec z 0) as [->|Hz]; simpl.
    + split; [intros _; auto 10 | reflexivity].
    + split; [discriminate |].
      intros H; repeat destruct H as [H|H];
        first [discriminate | contradiction | congruence].
  - rewrite !orb_false_r.
    split.
    + intros H. repeat (apply orb_true_iff in H as [H|H];
        [apply bool_decide_eq_true in H; subst; auto 10 |]).
      apply bool_decide_eq_true in H; subst; auto 10.
    + intros H; repeat destruct H as [H|H];
        try (discriminate || contradiction); injection H as ->; rewrite ?bool_decide_true by done;
        rewrite ?orb_true_r; reflexivity.
Qed.

Lemma clean_record_dom (raw : raw_record) :
  dom (clean_record raw) = list_to_set MIXTURE_COLUMNS.
Proof.
  apply set_eq. intros k.
  rewrite elem_of_dom, clean_record_lookup, elem_of_list_to_set.
  case_bool_decide; split; intros Hk; try done.
Qed.

Lemma clean_record_del_yn_value (raw : raw_record) :
  clean_record raw !! DEL_YN =
  Some (OBool (negb (bool_decide (resolve raw DEL_YN ∈ del_yn_false_tokens)))).
Proof.
  rewrite clean_record_lookup, bool_decide_true by exact DEL_YN_col.
  unfold clean_value.
  rewrite bool_decide_false by (apply not_eq_sym, NOTIFICATION_DATE_DEL_YN).
  rewrite bool_decide_true by done.
  destruct (_ || _) eqn:E; do 2 f_equal.
  - apply del_yn_test_iff in E. by rewrite bool_decide_true.
  - rewrite bool_decide_false; [done |].
    intros Hin. apply del_yn_test_iff in Hin. congruence.
Qed.

(** [C2] Canonical key set: whatever keys the input dict has, the output of
    [clean_record] has exactly the 19 columns of [MIXTURE_COLUMNS] as keys;
    [NOTIFICATION_DATE] holds a string or null, [DEL_YN] a boolean, and every
    other column a string. *)
Theorem clean_record_canonical_keys (raw : raw_record) :
  dom (clean_record raw) = list_to_set MIXTURE_COLUMNS ∧
  size (clean_record raw) = 19%nat ∧
  map_Forall out_type_ok (clean_record raw).
Proof.
  split; [apply clean_record_dom | split].
  - rewrite <- size_dom, clean_record_dom, size_list_to_set.
    + reflexivity.
    + apply MIXTURE_COLUMNS_NoDup.
  - intros k v Hk. rewrite clean_record_lookup in Hk.
    case_bool_decide; [| discriminate].
    injection Hk as <-. apply clean_value_type.
Qed.

(** [C3] [DEL_YN] coercion: the output [DEL_YN] is [false] exactly when the
    resolved value is the Korean token "정상" or one of [False], "f",
    "false", "False", "N", "n", "0", [0]; every other value, null or a
    missing field included, gives [true]. *)
Theorem clean_record_del_yn (raw : raw_record) :
  (clean_record raw !! DEL_YN = Some (OBool false) <->
     resolve raw DEL_YN ∈ del_yn_false_tokens) ∧
  (resolve raw DEL_YN ∉ del_yn_false_tokens ->
     clean_record raw !! DEL_YN = Some (OBool true)) ∧
  (resolve raw DEL_YN = SNone ->
     clean_record raw !! DEL_YN = Some (OBool true)).
Proof.
  rewrite clean_record_del_yn_value.
  split; [| split].
  - case_bool_decide; split; intros Hk; try done; discriminate.
  - intros Hn. by rewrite bool_decide_false.
  - intros ->. rewrite bool_decide_false; [done |].
    unfold del_yn_false_tokens, del_yn_falsy.
    rewrite !elem_of_cons, elem_of_nil.
    intros H; repeat destruct H as [H|H]; first [discriminate | contradiction].
Qed.

(** [C8] Totality of the normaliser: on every input dict [clean_record]
    returns a record with a value for every column, and fields that are
    missing (under all three spellings) or null get the defaults: the empty
    string for plain columns, null for [NOTIFICATION_DATE], [true] for
    [DEL_YN]. *)
Theorem clean_record_total_defaults (raw : raw_record) :
  (forall col, col ∈ MIXTURE_COLUMNS -> is_Some (clean_record raw !! col)) ∧
  (forall col, col ∈ MIXTURE_COLUMNS -> col <> NOTIFICATION_DATE ->
     col <> DEL_YN -> resolve raw col = SNone ->
     clean_record raw !! col = Some (OStr [])) ∧
  (resolve raw NOTIFICATION_DATE = SNone ->
     clean_record raw !! NOTIFICATION_DATE = Some ONone) ∧
  (resolve raw DEL_YN = SNone ->
     clean_record raw !! DEL_YN = Some (OBool true)).
Proof.
  split; [| split; [| split]].
  - intros col Hc. rewrite clean_record_lookup, bool_decide_true by done. eauto.
  - intros col Hc Hd Hy Hr. rewrite clean_record_lookup, bool_decide_true by done.
    unfold clean_value. rewrite !bool_decide_false by done. by rewrite Hr.
  - intros Hr. rewrite clean_record_lookup, bool_decide_true by exact NOTIFICATION_DATE_col.
    unfold clean_value. rewrite bool_decide_true by done. by rewrite Hr.
  - intros Hr. rewrite clean_record_del_yn_value, Hr. reflexivity.
Qed.

(** ** Case-insensitive resolution *)

(** A dict whose keys are the field names of [fields] spelled through [f]
    ([{f(k): v for k, v in fields}]). *)
Definition keyed_by (f : pystr -> pystr) (fields : list (pystr * scalar))
    : raw_record :=
  list_to_map (map (fun kv => (f kv.1, kv.2)) fields).

Lemma keyed_by_lookup (f : pystr -> pystr) (fields : list (pystr * scalar))
    (k : pystr) :
  (forall kv, kv ∈ fields -> f kv.1 = f k -> kv.1 = k) ->
  keyed_by f fields !! f k = (list_to_map fields : raw_record) !! k.
Proof.
  unfold keyed_by. induction fields as [|[k' v] fields IH]; intros Hinj;
    [done |].
  cbn [map list_to_map foldr fst snd]. rewrite !lookup_insert.
  case_decide as Hf.
  - assert (k' = k) as -> by (apply (Hinj (k', v)); [set_solver | done]).
    by rewrite decide_True.
  - rewrite decide_False by congruence.
    apply IH. intros kv Hkv. apply Hinj. set_solver.
Qed.

Lemma keyed_by_none (f : pystr -> pystr) (fields : list (pystr * scalar))
    (k : pystr) :
  (forall kv, kv ∈ fields -> f kv.1 <> k) ->
  keyed_by f fields !! k = None.
Proof.
  unfold keyed_by. induction fields as [|[k' v] fields IH]; intros Hne;
    [done |].
  cbn [map list_to_map foldr fst snd]. rewrite lookup_insert.
  rewrite decide_False.
  - apply IH. intros kv Hkv. apply Hne. set_solver.
  - apply (Hne (k', v)). set_solver.
Qed.

(** Facts about the spellings of the 19 column names, checked by
    evaluation. *)
Lemma cols_lower_not_col :
  Forall (fun col => Forall (fun c => py_lower c <> col) MIXTURE_COLUMNS)
    MIXTURE_COLUMNS.
Proof. apply (bool_decide_unpack _). vm_compute. reflexivity. Qed.

Lemma cols_lower_inj :
  Forall (fun col => Forall (fun c => py_lower c = py_lower col -> c = col)
    MIXTURE_COLUMNS) MIXTURE_COLUMNS.
Proof. apply (bool_decide_unpack _). vm_compute. reflexivity. Qed.

Lemma cols_upper_id : Forall (fun c => py_upper c = c) MIXTURE_COLUMNS.
Proof. apply (bool_decide_unpack _). vm_compute. reflexivity. Qed.

Lemma cols_not_lower_col :
  Forall (fun col => Forall (fun c => c <> py_lower col) MIXTURE_COLUMNS)
    MIXTURE_COLUMNS.
Proof. apply (bool_decide_unpack _). vm_compute. reflexivity. Qed.

Lemma resolve_lower_upper (fields : list (pystr * scalar)) (col : pystr) :
  Forall (fun kv => kv.1 ∈ MIXTURE_COLUMNS) fields ->
  col ∈ MIXTURE_COLUMNS ->
  resolve (keyed_by py_lower fields) col = resolve (keyed_by py_upper fields) col.
Proof.
  intros Hf Hcol. rewrite Forall_forall in Hf.
  pose proof cols_lower_not_col as F1. pose proof cols_lower_inj as F2.
  pose proof cols_upper_id as F3. pose proof cols_not_lower_col as F4.
  rewrite Forall_forall in F1, F2, F3, F4.
  specialize (F1 col Hcol). specialize (F2 col Hcol).
  specialize (F4 col Hcol). rewrite Forall_forall in F1, F2, F4.
  assert (Hup : py_upper col = col) by auto.
  assert (HLc : keyed_by py_lower fields !! col = None).
  { apply keyed_by_none. intros kv Hkv. apply F1. auto. }
  assert (HLl : keyed_by py_lower fields !! py_lower col =
                (list_to_map fields : raw_record) !! col).
  { apply keyed_by_lookup. intros kv Hkv. apply F2. auto. }
  assert (HU : keyed_by py_upper fields !! col =
               (list_to_map fields : raw_record) !! col).
  { rewrite <- Hup at 1. apply keyed_by_lookup. intros kv Hkv.
    rewrite Hup, F3 by auto. done. }
  assert (HUl : keyed_by py_upper fields !! py_lower col = None).
  { apply keyed_by_none. intros kv Hkv. rewrite F3 by auto. apply F4. auto. }
  unfold resolve. rewrite Hup, HLc, HLl, HU, HUl.
  destruct ((list_to_map fields : raw_record) !! col); reflexivity.
Qed.

(** [C6] Case-insensitive lookup: each column is resolved from the exact
    column name, else its lower-case spelling, else its upper-case
    spelling, else null; hence a record carrying the values of some
    columns under all-lower-case keys and one carrying the same values under
    all-upper-case keys normalise to the same output. *)
Theorem clean_record_case_insensitive :
  (forall (raw : raw_record) col,
     col ∈ MIXTURE_COLUMNS ->
     clean_record raw !! col = Some (clean_value col (resolve raw col))) ∧
  (forall (raw : raw_record) col v,
     raw !! col = Some v -> resolve raw col = v) ∧
  (forall (raw : raw_record) col v,
     raw !! col = None -> raw !! py_lower col = Some v -> resolve raw col = v) ∧
  (forall (raw : raw_record) col v,
     raw !! col = None -> raw !! py_lower col = None ->
     raw !! py_upper col = Some v -> resolve raw col = v) ∧
  (forall (raw : raw_record) col,
     raw !! col = None -> raw !! py_lower col = None ->
     raw !! py_upper col = None -> resolve raw col = SNone) ∧
  (forall fields : list (pystr * scalar),
     Forall (fun kv => kv.1 ∈ MIXTURE_COLUMNS) fields ->
     clean_record (keyed_by py_lower fields) =
     clean_record (keyed_by py_upper fields)).
Proof.
  split; [| split; [| split; [| split; [| split]]]].
  - intros raw col Hc. by rewrite clean_record_lookup, bool_decide_true.
  - intros raw col v H. unfold resolve. by rewrite H.
  - intros raw col v H1 H2. unfold resolve. by rewrite H1, H2.
  - intros raw col v H1 H2 H3. unfold resolve. by rewrite H1, H2, H3.
  - intros raw col H1 H2 H3. unfold resolve. by rewrite H1, H2, H3.
  - intros fields Hf. apply map_eq. intros k.
    rewrite !clean_record_lookup. case_bool_decide as Hk; [| done].
    by rewrite resolve_lower_upper.
Qed.

(** ** [NOTIFICATION_DATE] *)

Definition date_raw (v : scalar) : raw_record := {[ NOTIFICATION_DATE := v ]}.

(** [C4] As stated, the claim fails: a string padded with a space is not an
    8-character all-numeric string, yet it is reformatted (the code strips
    before testing); and [False] or [0] are neither null nor empty, yet they
    give null. *)
Lemma clean_record_date_counterexample :
  length (u " 20230115") = 9%nat ∧
  clean_record (date_raw (SStr (u " 20230115"))) !! NOTIFICATION_DATE =
    Some (OStr (u "2023-01-15")) ∧
  py_strip (u " 20230115") = u "20230115" ∧
  OStr (u "2023-01-15") <> OStr (u "20230115") ∧
  clean_record (date_raw (SBool false)) !! NOTIFICATION_DATE = Some ONone ∧
  clean_record (date_raw (SInt 0)) !! NOTIFICATION_DATE = Some ONone.
Proof.
  split; [reflexivity |]. split; [vm_compute; reflexivity |].
  split; [reflexivity |]. split; [discriminate |].
  split; vm_compute; reflexivity.
Qed.

(** [C4] (amended) Date normalisation: with [v] the resolved value and [s]
    its stripped string form [str(v).strip()], the output is null when [v]
    is falsy (null, the empty string, [False], [0]); it is
    [s[:4]-s[4:6]-s[6:8]] when [s] has 8 characters, all digits; otherwise
    it is [s]. So "20230115" gives "2023-01-15", "2023-01-15" stays, and
    null or "" give null. *)
Theorem clean_record_notification_date (raw : raw_record) :
  let v := resolve raw NOTIFICATION_DATE in
  let s := py_strip (py_str v) in
  (py_truthy v = false ->
     clean_record raw !! NOTIFICATION_DATE = Some ONone) ∧
  (py_truthy v = true -> length s = 8%nat -> py_isdigit s = true ->
     clean_record raw !! NOTIFICATION_DATE =
       Some (OStr (take 4 s ++ u "-" ++ take 2 (drop 4 s) ++ u "-" ++
                   take 2 (drop 6 s)))) ∧
  (py_truthy v = true -> (length s <> 8%nat \/ py_isdigit s = false) ->
     clean_record raw !! NOTIFICATION_DATE = Some (OStr s)) ∧
  clean_record (date_raw (SStr (u "20230115"))) !! NOTIFICATION_DATE =
    Some (OStr (u "2023-01-15")) ∧
  clean_record (date_raw (SStr (u "2023-01-15"))) !! NOTIFICATION_DATE =
    Some (OStr (u "2023-01-15")) ∧
  clean_record (date_raw SNone) !! NOTIFICATION_DATE = Some ONone ∧
  clean_record (date_raw (SStr [])) !! NOTIFICATION_DATE = Some ONone.
Proof.
  intros v s.
  assert (Hl : clean_record raw !! NOTIFICATION_DATE =
    Some (match _parse_date_yyyymmdd v with Some s => OStr s | None => ONone end)).
  { rewrite clean_record_lookup, bool_decide_true by exact NOTIFICATION_DATE_col.
    unfold clean_value. by rewrite bool_decide_true. }
  rewrite Hl. unfold _parse_date_yyyymmdd. fold s.
  split; [| split; [| split; [| split; [| split; [| split]]]]].
  - intros ->. reflexivity.
  - intros -> Hlen Hd. rewrite Hlen, Hd. reflexivity.
  - intros -> Hor. simpl.
    destruct (Nat.eqb_spec (length s) 8) as [E|E]; [| reflexivity].
    destruct Hor as [Hor|Hor]; [congruence |]. by rewrite Hor.
  - vm_compute. reflexivity.
  - vm_compute. reflexivity.
  - vm_compute. reflexivity.
  - vm_compute. reflexivity.
Qed.

(** ** Effects: network requests, raw snapshots and upserts

    The pipeline is single-threaded; its observable effects are recorded
    in a world: the HTTP requests issued (in order), the raw snapshots
    written, and the upsert calls made. Printing and [time.sleep] have no
    effect on these and are left out. *)

(** Decoded JSON values of the upstream API. *)
#[local] Set Warnings "-register-all".
Inductive json :=
| JNull
| JBool (b : bool)
| JInt (z : Z)
| JStr (s : pystr)
| JArr (l : list json)
| JObj (kvs : list (pystr * json)).

Inductive py_error :=
| ValueError (msg : pystr)      (* configuration missing *)
| HTTPError                     (* raise_for_status on a non-success status *)
| NetworkError                  (* timeout or connection failure *)
| TypeError
| AttributeError
| ZeroDivisionError
| OverflowError                 (* int / int whose quotient exceeds the float range *)
| JSONDecodeError               (* response.json() on a body that is not JSON *)
| OSError                       (* makedirs, open or json.dump of the snapshot *)
| UpsertError.

(** One GET request: [requests.get(base_url, params=...)]. *)
Record request := mk_request {
  req_url : pystr;
  req_service_key : option pystr;
  req_page_no : Z;
  req_num_of_rows : Z
}.

Inductive response :=
| RespOk (body : json)
| RespHttpError
| RespNetworkError
| RespNotJson.                  (* a success status whose body is not JSON *)

Record world := mk_world {
  w_requests : list request;
  w_saved : list (pystr * list json);
  w_upserts : list (pystr * list out_record)
}.

(** State and error monad over the world. *)
Definition M (A : Type) : Type := world -> (py_error + A) * world.

Definition ret {A} (a : A) : M A := fun w => (inr a, w).
Definition raise {A} (e : py_error) : M A := fun w => (inl e, w).
Definition bind {A B} (m : M A) (k : A -> M B) : M B :=
  fun w => match m w with
           | (inl e, w') => (inl e, w')
           | (inr a, w') => k a w'
           end.
Definition lift {A} (r : py_error + A) : M A :=
  fun w => (r, w).

Notation "'let*' x := m 'in' k" := (bind m (fun x => k))
  (at level 200, x name, m at level 100, k at level 200).

Definition log_request (r : request) : M unit :=
  fun w => (inr tt, mk_world (w_requests w ++ [r]) (w_saved w) (w_upserts w)).

(** Python's [a or b] on optional strings (None and "" are falsy). *)
Definition str_truthy (s : option pystr) : bool :=
  match s with Some (_ :: _) => true | _ => false end.

Definition py_or (a b : option pystr) : option pystr :=
  if str_truthy a then a else b.

(** [d.get(key, default)]: a [dict] method; other values have no [get]. *)
Fixpoint assoc (kvs : list (pystr * json)) (k : pystr) : option json :=
  match kvs with
  | [] => None
  | (k', v) :: kvs' => if bool_decide (k' = k) then Some v else assoc kvs' k
  end.

Definition dict_get (d : json) (k : pystr) (default : json) : py_error + json :=
  match d with
  | JObj kvs => inr (match assoc kvs k with Some v => v | None => default end)
  | _ => inl AttributeError
  end.

(** Operand of [/]: [int] (and [bool], a subclass of [int]). *)
Definition as_number (j : json) : py_error + Z :=
  match j with
  | JInt z => inr z
  | JBool b => inr (if b then 1 else 0)
  | _ => inl TypeError
  end.

(** [for x in j]: a list yields its elements, a dict its keys, a string its
    characters; other values are not iterable. *)
Definition py_iter (j : json) : py_error + list json :=
  match j with
  | JArr l => inr l
  | JObj kvs => inr (map (fun kv => JStr kv.1) kvs)
  | JStr s => inr (map (fun c => JStr [c]) s)
  | _ => inl TypeError
  end.

(** [math.ceil(a / b)] for [b > 0]. The code divides in floating point;
    the model takes the exact quotient, which the float quotient matches
    for the magnitudes of record counts. *)
Definition ceil_div (a b : Z) : Z := - ((- a) / b).

(** Python's true division [a / b] of two ints gives the binary64 value
    nearest the exact quotient (round half to even), and raises
    [OverflowError] when that value is [2 ^ 1024] or more. [div_rne n d] is
    [n / d] rounded half to even, for [d > 0]. *)
Definition div_rne (n d : Z) : Z :=
  let q := n / d in
  let r := n mod d in
  if d <? 2 * r then q + 1
  else if 2 * r =? d then (if Z.odd q then q + 1 else q)
  else q.

(** [a < b * 2 ^ k], for an integer [k] of either sign. *)
Definition lt_scaled (a b k : Z) : bool :=
  if 0 <=? k then a <? b * 2 ^ k else a * 2 ^ (- k) <? b.

(** [floor(log2(a / b))] for [a, b > 0]. *)
Definition flog2_div (a b : Z) : Z :=
  let k0 := Z.log2 a - Z.log2 b in
  if lt_scaled a b k0 then k0 - 1 else k0.

(** The binary64 value nearest [a / b] for [a, b > 0], as [(m, e)] with
    value [m * 2 ^ e]: the significand has 53 bits, and the exponent does
    not go below [-1074] (subnormals). *)
Definition round_div (a b : Z) : Z * Z :=
  let k := flog2_div a b in
  let e := Z.max (k - 52) (-1074) in
  let m := if 0 <=? e then div_rne a (b * 2 ^ e) else div_rne (a * 2 ^ (- e)) b in
  (m, e).

(** [math.ceil(a / b)] for [b > 0]. *)
Definition py_ceil_true_div (a b : Z) : py_error + Z :=
  if a =? 0 then inr 0
  else
    let '(m, e) := round_div (Z.abs a) b in
    if (0 <=? e) && (2 ^ 1024 <=? m * 2 ^ e) then inl OverflowError
    else if 0 <=? e then inr (Z.sgn a * (m * 2 ^ e))
    else if 0 <? a then inr (- ((- m) / 2 ^ (- e)))
    else inr (- (m / 2 ^ (- e))).

(** [range(a, b)]. *)
Definition py_range (a b : Z) : list Z :=
  map (fun i => a + Z.of_nat i) (seq 0 (Z.to_nat (b - a))).

(** [fetch_page] *)
Definition fetch_page (server : request -> response) (base_url : pystr)
    (page_no num_of_rows : Z) (service_key default_key : option pystr) : M json :=
  let r := mk_request base_url (py_or service_key default_key) page_no num_of_rows in
  let* _ := log_request r in
  match server r with
  | RespOk j => ret j
  | RespHttpError => raise HTTPError
  | RespNetworkError => raise NetworkError
  | RespNotJson => raise JSONDecodeError
  end.

(** The unwrapping of one item: [item_wrapper["item"]] when it is a dict
    holding the key ["item"], the item itself otherwise. *)
Definition unwrap_item (item_wrapper : json) : json :=
  match item_wrapper with
  | JObj kvs =>
      match assoc kvs (u "item") with
      | Some x => x
      | None => item_wrapper
      end
  | _ => item_wrapper
  end.

(** [total_pages] as computed in [fetch_all_from_api] from a numeric
    [total_count]:
    [math.ceil(total_count / num_of_rows) if num_of_rows > 0 else 1]. *)
Definition total_pages_of (total_count num_of_rows : Z) : py_error + Z :=
  if 0 <? num_of_rows then py_ceil_true_div total_count num_of_rows else inr 1.

(** The items of one page response: [data.get("body", {}).get("items", [])],
    iterated. *)
Definition page_items (data : json) : py_error + list json :=
  match dict_get data (u "body") (JObj []) with
  | inl e => inl e
  | inr body =>
      match dict_get body (u "items") (JArr []) with
      | inl e => inl e
      | inr items => py_iter items
      end
  end.

(** The [for page in range(1, total_pages + 1)] loop. *)
Fixpoint fetch_pages (server : request -> response) (base_url : pystr)
    (num_of_rows : Z) (service_key default_key : option pystr)
    (pages : list Z) (all_items : list json) : M (list json) :=
  match pages with
  | [] => ret all_items
  | page :: pages' =>
      let* data := fetch_page server base_url page num_of_rows service_key default_key in
      let* items := lift (page_items data) in
      fetch_pages server base_url num_of_rows service_key default_key pages'
        (all_items ++ map unwrap_item items)
  end.

(** [first_page.get("body", {}).get("totalCount", 0)]. *)
Definition probe_total_count (first_page : json) : py_error + json :=
  match dict_get first_page (u "body") (JObj []) with
  | inl e => inl e
  | inr body => dict_get body (u "totalCount") (JInt 0)
  end.

(** [fetch_all_from_api]; [default_key] is [MIXTURE_API_SERVICE_KEY]. *)
Definition fetch_all_from_api (server : request -> response) (base_url : pystr)
    (num_of_rows : Z) (service_key default_key : option pystr) : M (list json) :=
  let service_key := py_or service_key default_key in
  let* first_page := fetch_page server base_url 1 1 service_key default_key in
  let* total_count := lift (probe_total_count first_page) in
  let* total_pages :=
    (if 0 <? num_of_rows
     then let* n := lift (as_number total_count) in lift (py_ceil_true_div n num_of_rows)
     else ret 1) in
  fetch_pages server base_url num_of_rows service_key default_key
    (py_range 1 (total_pages + 1)) [].

(** ** [upsert_to_supabase] *)

(** Index normalisation of a Python slice bound. *)
Definition py_index (len i : Z) : Z :=
  if i <? 0 then Z.max 0 (len + i) else Z.min i len.

(** [l[i:j]]. *)
Definition py_slice {A} (l : list A) (i j : Z) : list A :=
  let n := Z.of_nat (length l) in
  let a := py_index n i in
  let b := py_index n j in
  take (Z.to_nat (b - a)) (drop (Z.to_nat a) l).

(** [client.table(table_name).upsert(batch).execute()]: the store either
    commits the batch or rejects it. *)
Definition upsert_call (store : pystr -> list out_record -> bool)
    (table_name : pystr) (batch : list out_record) : M unit :=
  fun w =>
    if store table_name batch
    then (inr tt, mk_world (w_requests w) (w_saved w)
                    (w_upserts w ++ [(table_name, batch)]))
    else (inl UpsertError, w).

(** The [for i in range(batches)] loop. *)
Fixpoint upsert_batches (store : pystr -> list out_record -> bool)
    (rows : list out_record) (table_name : pystr) (batch_size : Z)
    (is : list Z) : M unit :=
  match is with
  | [] => ret tt
  | i :: is' =>
      let start := i * batch_size in
      let end_ := start + batch_size in
      let batch := py_slice rows start end_ in
      let* _ := upsert_call store table_name batch in
      upsert_batches store rows table_name batch_size is'
  end.

Definition upsert_to_supabase (store : pystr -> list out_record -> bool)
    (rows : list out_record) (table_name : pystr) (batch_size : Z) : M unit :=
  let total := Z.of_nat (length rows) in
  if total =? 0 then ret tt
  else if batch_size =? 0 then raise ZeroDivisionError
  else
    let batches := ceil_div total batch_size in
    upsert_batches store rows table_name batch_size (py_range 0 batches).

(** ** [fetch_mixture_data] *)

(** The configuration values read from the environment ([src.config]). *)
Record config := mk_config {
  MIXTURE_API_BASE_URL : option pystr;
  MIXTURE_API_SERVICE_KEY : option pystr;
  MIXTURE_API_NUM_OF_ROWS : Z
}.

(** Writing the snapshot: [os.makedirs] of its directory, [open(save_path,
    "w")] and [json.dump]. [writable path items] tells whether these
    succeed; when one of them fails, [OSError] is raised and no complete
    snapshot is recorded (a file truncated by [open] or partly written by
    [json.dump] may be left behind; it does not hold the items). *)
Definition save_json (writable : pystr -> list json -> bool) (path : pystr)
    (items : list json) : M unit :=
  fun w =>
    if writable path items
    then (inr tt, mk_world (w_requests w) (w_saved w ++ [(path, items)])
                    (w_upserts w))
    else (inl OSError, w).

(** The [ValueError] messages are abbreviated (the source's are in Korean). *)
Definition fetch_mixture_data (server : request -> response)
    (writable : pystr -> list json -> bool) (cfg : config)
    (save_path : option pystr) : M (list json) :=
  if negb (str_truthy (MIXTURE_API_BASE_URL cfg)) then
    raise (ValueError (u ".env: MIXTURE_API_BASE_URL"))
  else if negb (str_truthy (MIXTURE_API_SERVICE_KEY cfg)) then
    raise (ValueError (u ".env: MIXTURE_API_SERVICE_KEY"))
  else
    let base_url := default [] (MIXTURE_API_BASE_URL cfg) in
    let* items := fetch_all_from_api server base_url (MIXTURE_API_NUM_OF_ROWS cfg)
                    None (MIXTURE_API_SERVICE_KEY cfg) in
    match save_path with
    | Some path =>
        if str_truthy save_path
        then let* _ := save_json writable path items in ret items
        else ret items
    | None => ret items
    end.

(** ** Facts about the Collector *)

Lemma ceil_div_spec (a b : Z) :
  0 < b -> b * ceil_div a b - b < a <= b * ceil_div a b.
Proof.
  intros Hb. unfold ceil_div.
  pose proof (Z.div_mod (- a) b ltac:(lia)) as Hd.
  pose proof (Z.mod_pos_bound (- a) b Hb) as Hm.
  nia.
Qed.

Lemma ceil_add_mul (n P t : Z) : 0 < P -> - ((- (n * P + t)) / P) = n - ((- t) / P).
Proof.
  intros HP. replace (- (n * P + t)) with (- t + (- n) * P) by ring.
  rewrite Z.div_add by lia. ring.
Qed.

Lemma neg_div_m1 (x d : Z) : 0 < x <= d -> (- x) / d = -1.
Proof. intros H. symmetry. apply Z.div_unique with (d - x); lia. Qed.

Lemma div_rne_1 (n : Z) : div_rne n 1 = n.
Proof. unfold div_rne. rewrite Z.div_1_r, Z.mod_1_r. reflexivity. Qed.

Lemma rne_ceil_core (a b P : Z) :
  0 < a -> 0 < b -> 0 < P -> Z.odd P = false -> b <= 2 * P ->
  (b = 2 * P -> a mod b = 0) ->
  - ((- div_rne (a * P) b) / P) = - ((- a) / b).
Proof.
  intros Ha Hb HP HPo Hb2 Htie.
  pose proof (Z.div_mod a b ltac:(lia)) as Ea.
  pose proof (Z.mod_pos_bound a b Hb) as Hr.
  set (n := a / b) in *. set (r := a mod b) in *.
  assert (Eq : (a * P) / b = n * P + (r * P) / b).
  { rewrite Ea. replace ((b * n + r) * P) with (r * P + (n * P) * b) by ring.
    rewrite Z.div_add by lia. ring. }
  assert (Em : (a * P) mod b = (r * P) mod b).
  { rewrite Ea. replace ((b * n + r) * P) with (r * P + (n * P) * b) by ring.
    apply Z.mod_add. lia. }
  pose proof (Z.div_mod (r * P) b ltac:(lia)) as Eq'.
  pose proof (Z.mod_pos_bound (r * P) b Hb) as Hr'.
  set (q' := (r * P) / b) in *. set (r' := (r * P) mod b) in *.
  assert (Hq0 : 0 <= q') by (apply Z.div_pos; nia).
  assert (HqP : q' < P) by nia.
  assert (Hodd : Z.odd (n * P + q') = Z.odd q').
  { rewrite Z.odd_add, Z.odd_mul, HPo, andb_false_r. reflexivity. }
  unfold div_rne. rewrite Eq, Em, Hodd.
  replace (- ((- a) / b)) with (n - ((- r) / b))
    by (rewrite Ea, (Z.mul_comm b n), ceil_add_mul by lia; reflexivity).
  destruct (Z.eq_dec r 0) as [Hr0|Hr0].
  - assert (q' = 0 /\ r' = 0) as [-> ->].
    { unfold q', r'. rewrite Hr0, Z.mul_0_l, Z.div_0_l, Z.mod_0_l by lia. auto. }
    rewrite Hr0. destruct (Z.ltb_spec b (2 * 0)); [lia |].
    destruct (Z.eqb_spec (2 * 0) b); [lia |].
    rewrite ceil_add_mul by lia. rewrite Z.opp_0, !Z.div_0_l by lia. reflexivity.
  - rewrite (neg_div_m1 r b) by lia.
    destruct (Z.ltb_spec b (2 * r')) as [H1|H1].
    { rewrite <- Z.add_assoc, ceil_add_mul, neg_div_m1 by lia. reflexivity. }
    assert (Hq1 : 1 <= q' \/ 2 * r' = b /\ Z.odd q' = true).
    { destruct (Z.eq_dec q' 0) as [Hq|Hq]; [| lia].
      exfalso. rewrite Hq in Eq'.
      assert (2 * r' = b) by nia. assert (r = 1) by nia.
      assert (Hb2P : b = 2 * P) by nia. specialize (Htie Hb2P). lia. }
    destruct (Z.eqb_spec (2 * r') b) as [H2|H2].
    + destruct (Z.odd q') eqn:Ho.
      * rewrite <- Z.add_assoc, ceil_add_mul, neg_div_m1 by lia. reflexivity.
      * destruct Hq1 as [Hq1|[_ Hq1]]; [| discriminate].
        rewrite ceil_add_mul, neg_div_m1 by lia. reflexivity.
    + destruct Hq1 as [Hq1|[Hq1 _]]; [| lia].
      rewrite ceil_add_mul, neg_div_m1 by lia. reflexivity.
Qed.

Lemma flog2_div_spec (a b : Z) :
  0 < a -> 0 < b ->
  Z.log2 a - Z.log2 b - 1 <= flog2_div a b ∧
  (0 <= flog2_div a b -> b * 2 ^ flog2_div a b <= a) ∧
  (flog2_div a b < 0 -> b <= a * 2 ^ (- flog2_div a b)).
Proof.
  intros Ha Hb.
  pose proof (Z.log2_spec a Ha) as [Ha1 Ha2].
  pose proof (Z.log2_spec b Hb) as [Hb1 Hb2].
  pose proof (Z.log2_nonneg a) as Hla0. pose proof (Z.log2_nonneg b) as Hlb0.
  unfold flog2_div, lt_scaled.
  set (la := Z.log2 a) in *. set (lb := Z.log2 b) in *.
  destruct (Z.leb_spec 0 (la - lb)) as [Hk|Hk].
  - destruct (Z.ltb_spec a (b * 2 ^ (la - lb))) as [Hc|Hc].
    + split; [lia | split].
      * intros Hk1.
        assert (Hp : 2 ^ Z.succ lb * 2 ^ (la - lb - 1) = 2 ^ la)
          by (rewrite <- Z.pow_add_r by lia; f_equal; lia).
        pose proof (Z.pow_pos_nonneg 2 (la - lb - 1) ltac:(lia) Hk1). nia.
      * intros Hk1.
        assert (E2 : 2 ^ Z.succ lb = 2 * 2 ^ la)
          by (rewrite Z.pow_succ_r by lia; replace lb with la by lia; ring).
        replace (- (la - lb - 1)) with 1 by lia. rewrite Z.pow_1_r. lia.
    + split; [lia | split; [intros; lia | intros; lia]].
  - destruct (Z.ltb_spec (a * 2 ^ (- (la - lb))) b) as [Hc|Hc].
    + split; [lia | split; [intros; lia |]].
      intros _.
      assert (Hp : 2 ^ la * 2 ^ (- (la - lb - 1)) = 2 ^ Z.succ lb)
        by (rewrite <- Z.pow_add_r by lia; f_equal; lia).
      pose proof (Z.pow_pos_nonneg 2 (- (la - lb - 1)) ltac:(lia) ltac:(lia)). nia.
    + split; [lia | split; [intros; lia | intros; lia]].
Qed.

Lemma py_ceil_true_div_exact (a b : Z) :
  0 <= a <= 2 ^ 53 -> 0 < b <= 2 ^ 53 ->
  py_ceil_true_div a b = inr (ceil_div a b).
Proof.
  intros Ha Hb. unfold py_ceil_true_div.
  destruct (Z.eqb_spec a 0) as [->|Ha0].
  { unfold ceil_div. rewrite Z.opp_0, Z.div_0_l by lia. reflexivity. }
  rewrite Z.abs_eq by lia. unfold round_div. cbv beta zeta iota.
  pose proof (flog2_div_spec a b ltac:(lia) ltac:(lia)) as (Hk & Hpos & Hneg).
  assert (Hlb : Z.log2 b <= 53).
  { rewrite <- (Z.log2_pow2 53) by lia. apply Z.log2_le_mono. lia. }
  pose proof (Z.log2_nonneg a).
  rewrite Z.max_l by lia.
  set (k := flog2_div a b) in *.
  destruct (Z.leb_spec 0 (k - 52)) as [He|He].
  - specialize (Hpos ltac:(lia)).
    assert (Hk53 : k <= 53).
    { destruct (Z.le_gt_cases k 53) as [|Hgt]; [lia |].
      assert (2 ^ 54 <= 2 ^ k) by (apply Z.pow_le_mono_r; lia). lia. }
    assert (k = 52 \/ k = 53) as [Ek|Ek] by lia; rewrite Ek in *.
    + assert (b = 1 \/ (b = 2 /\ a = 2 ^ 53)) as [->|[-> ->]] by lia.
      * change (52 - 52) with 0. rewrite Z.pow_0_r, !Z.mul_1_r, div_rne_1.
        change (0 <=? 0) with true. cbn [andb].
        destruct (Z.leb_spec (2 ^ 1024) a); [lia |].
        rewrite Z.sgn_pos by lia. unfold ceil_div. rewrite Z.div_1_r. f_equal. lia.
      * reflexivity.
    + assert (b = 1 /\ a = 2 ^ 53) as [-> ->] by lia. reflexivity.
  - cbn [andb].
    destruct (Z.ltb_spec 0 a) as [_|]; [| lia].
    set (P := 2 ^ (- (k - 52))).
    assert (HP : P = 2 * 2 ^ (51 - k)).
    { unfold P. rewrite <- Z.pow_succ_r by lia. f_equal. lia. }
    assert (HP0 : 0 < 2 ^ (51 - k)) by (apply Z.pow_pos_nonneg; lia).
    assert (Hscale : b * 2 ^ 52 <= a * P).
    { destruct (Z.le_gt_cases 0 k) as [Hk0|Hk0].
      - specialize (Hpos Hk0).
        assert (E : 2 ^ k * P = 2 ^ 52)
          by (unfold P; rewrite <- Z.pow_add_r by lia; f_equal; lia).
        assert (0 < P) by (unfold P; apply Z.pow_pos_nonneg; lia).
        nia.
      - specialize (Hneg Hk0).
        assert (E : 2 ^ (- k) * 2 ^ 52 = P)
          by (unfold P; rewrite <- Z.pow_add_r by lia; f_equal; lia).
        nia. }
    assert (E53 : 2 ^ 53 = 2 * 2 ^ 52) by reflexivity.
    assert (HP1 : 0 < P) by lia.
    apply f_equal, rne_ceil_core; try lia.
    + rewrite HP, Z.odd_mul. reflexivity.
    + nia.
    + intros Hb2. assert (Ea : a = 2 ^ 53) by nia. subst a.
      assert (Hb' : b = 2 ^ (53 - k)).
      { rewrite Hb2, HP, <- !Z.pow_succ_r by lia. f_equal. lia. }
      assert (Hk0 : 0 <= k).
      { destruct (Z.le_gt_cases 0 k) as [|Hlt]; [lia |].
        assert (2 ^ 54 <= 2 ^ (53 - k)) by (apply Z.pow_le_mono_r; lia). lia. }
      rewrite Hb'. replace (2 ^ 53) with (2 ^ k * 2 ^ (53 - k))
        by (rewrite <- Z.pow_add_r by lia; f_equal; lia).
      apply Z.mod_mul. pose proof (Z.pow_pos_nonneg 2 (53 - k)). lia.
Qed.

Lemma total_pages_exact (tc rows : Z) :
  0 < rows <= 2 ^ 53 -> 0 <= tc <= 2 ^ 53 ->
  total_pages_of tc rows = inr (ceil_div tc rows).
Proof.
  intros Hr Htc. unfold total_pages_of.
  rewrite (proj2 (Z.ltb_lt 0 rows)) by lia.
  by apply py_ceil_true_div_exact.
Qed.

Lemma py_range_elem (a b p : Z) : p ∈ py_range a b <-> a <= p < b.
Proof.
  unfold py_range. rewrite list_elem_of_In, in_map_iff.
  split.
  - intros [i [<- Hi]]. apply in_seq in Hi. lia.
  - intros Hp. exists (Z.to_nat (p - a)). split; [lia |].
    apply in_seq. lia.
Qed.

Lemma py_range_length (a b : Z) : length (py_range a b) = Z.to_nat (b - a).
Proof. unfold py_range. by rewrite length_map, length_seq. Qed.

Lemma py_or_idem (a b : option pystr) : py_or (py_or a b) b = py_or a b.
Proof. unfold py_or. destruct (str_truthy a) eqn:E; [by rewrite E | by destruct (str_truthy b)]. Qed.

Lemma world_eta (w : world) : mk_world (w_requests w) (w_saved w) (w_upserts w) = w.
Proof. by destruct w. Qed.

(** The page loop, when every page is served and decodes. *)
Lemma fetch_pages_ok (server : request -> response) (url : pystr) (rows : Z)
    (key dk : option pystr) (its : Z -> list json) (pages : list Z)
    (acc : list json) (w : world) :
  (forall p, p ∈ pages -> exists data,
     server (mk_request url (py_or key dk) p rows) = RespOk data ∧
     page_items data = inr (its p)) ->
  fetch_pages server url rows key dk pages acc w =
  (inr (acc ++ concat (map (fun p => map unwrap_item (its p)) pages)),
   mk_world (w_requests w ++ map (fun p => mk_request url (py_or key dk) p rows) pages)
     (w_saved w) (w_upserts w)).
Proof.
  revert acc w. induction pages as [|p pages IH]; intros acc w Hp.
  - simpl. rewrite !app_nil_r, world_eta. reflexivity.
  - destruct (Hp p) as [data [Hs Hi]]; [set_solver |].
    cbn [fetch_pages]. unfold bind at 1, fetch_page, bind at 1, log_request.
    rewrite Hs. unfold ret, bind, lift. rewrite Hi.
    rewrite IH by (intros q Hq; apply Hp; set_solver).
    cbn [map concat w_requests w_saved w_upserts].
    by rewrite <- !app_assoc.
Qed.

Lemma fetch_all_ok (server : request -> response) (url : pystr) (rows : Z)
    (sk dk : option pystr) (first_page : json) (tc P : Z) (its : Z -> list json)
    (w : world) :
  0 < rows ->
  server (mk_request url (py_or sk dk) 1 1) = RespOk first_page ->
  probe_total_count first_page = inr (JInt tc) ->
  total_pages_of tc rows = inr P ->
  (forall p, 1 <= p <= P -> exists data,
     server (mk_request url (py_or sk dk) p rows) = RespOk data ∧
     page_items data = inr (its p)) ->
  fetch_all_from_api server url rows sk dk w =
  (inr (concat (map (fun p => map unwrap_item (its p)) (py_range 1 (P + 1)))),
   mk_world (w_requests w ++ mk_request url (py_or sk dk) 1 1 ::
               map (fun p => mk_request url (py_or sk dk) p rows) (py_range 1 (P + 1)))
     (w_saved w) (w_upserts w)).
Proof.
  intros Hrows Hprobe Htc HP Hpages.
  unfold fetch_all_from_api, bind at 1, fetch_page, bind at 1, log_request.
  rewrite py_or_idem, Hprobe.
  unfold ret at 1, bind at 1, lift at 1. rewrite Htc.
  assert (Hr : (0 <? rows) = true) by (apply Z.ltb_lt; lia).
  unfold total_pages_of in HP. rewrite Hr in HP |- *.
  cbv [bind lift ret as_number]. rewrite HP.
  rewrite (fetch_pages_ok server url rows (py_or sk dk) dk its).
  - cbn [w_requests w_saved w_upserts]. rewrite py_or_idem, <- app_assoc.
    reflexivity.
  - intros p Hp. rewrite py_or_idem. apply Hpages.
    apply py_range_elem in Hp. lia.
Qed.

(** [C1] As stated, the claim fails: for [totalCount = 0] and a positive
    page size, [total_pages] is [0], not the claimed minimum of [1]. *)
Lemma total_pages_counterexample :
  exists P, total_pages_of 0 500 = inr P ∧ P < 1.
Proof. exists 0. split; [reflexivity | lia]. Qed.

(** [C1] (amended) Page count: [total_pages] is
    [math.ceil(totalCount / pageSize)] with a float division. For
    [0 <= totalCount <= 2^53] and [0 < pageSize <= 2^53] this is the exact
    ceiling (the least [P] with [P * pageSize >= totalCount]), with no
    minimum: [1001, 500] gives [3] and [0, 500] gives [0]; a page size
    [<= 0] gives [1]. Beyond [2^53] the rounding of the quotient shows
    ([2^53 + 1, 1] gives [2^53]), and a quotient beyond the float range
    ([10^400, 500]) raises [OverflowError], which [fetch_all_from_api]
    propagates right after the probe, requesting no data page. *)
Theorem total_pages_ceiling :
  (forall tc rows, 0 < rows <= 2 ^ 53 -> 0 <= tc <= 2 ^ 53 ->
     exists P, total_pages_of tc rows = inr P ∧ 0 <= P ∧
       rows * P - rows < tc <= rows * P) ∧
  (forall tc rows, rows <= 0 -> total_pages_of tc rows = inr 1) ∧
  total_pages_of 1001 500 = inr 3 ∧
  total_pages_of 0 500 = inr 0 ∧
  total_pages_of (2 ^ 53 + 1) 1 = inr (2 ^ 53) ∧
  total_pages_of (10 ^ 400) 500 = inl OverflowError ∧
  (forall (server : request -> response) url rows sk dk first_page tc e w,
     0 < rows ->
     server (mk_request url (py_or sk dk) 1 1) = RespOk first_page ->
     probe_total_count first_page = inr (JInt tc) ->
     total_pages_of tc rows = inl e ->
     fetch_all_from_api server url rows sk dk w =
     (inl e, mk_world (w_requests w ++ [mk_request url (py_or sk dk) 1 1])
               (w_saved w) (w_upserts w))).
Proof.
  split; [| split; [| split; [reflexivity | split; [reflexivity |
    split; [reflexivity | split; [reflexivity |]]]]]].
  - intros tc rows Hr Htc. exists (ceil_div tc rows).
    rewrite total_pages_exact by lia.
    pose proof (ceil_div_spec tc rows ltac:(lia)). split; [done | nia].
  - intros tc rows Hr. unfold total_pages_of.
    assert (E : (0 <? rows) = false) by (apply Z.ltb_ge; lia). by rewrite E.
  - intros server url rows sk dk first_page tc e w Hrows Hprobe Htc He.
    unfold fetch_all_from_api, bind at 1, fetch_page, bind at 1, log_request.
    rewrite py_or_idem, Hprobe. cbv [ret bind lift]. rewrite Htc.
    unfold total_pages_of in He.
    rewrite (proj2 (Z.ltb_lt 0 rows) Hrows) in He |- *. cbn [as_number].
    rewrite He. reflexivity.
Qed.

(** ** A three-page upstream used to exercise the Collector:
    [totalCount = 5], page size 2, pages of 2, 2 and 1 items, the first and
    last page wrapping each record as [{"item": X}]. *)
Definition demo_rec (code : string) : json :=
  JObj [(u "INGR_CODE", JStr (u code))].

Definition demo_wrap (x : json) : json := JObj [(u "item", x)].

Definition demo_items (p : Z) : list json :=
  if p =? 1 then [demo_wrap (demo_rec "D1"); demo_wrap (demo_rec "D2")]
  else if p =? 2 then [demo_rec "D3"; demo_rec "D4"]
  else if p =? 3 then [demo_wrap (demo_rec "D5")]
  else [].

Definition demo_page (p : Z) : json :=
  JObj [(u "header", JObj []);
        (u "body", JObj [(u "totalCount", JInt 5); (u "items", JArr (demo_items p))])].

Definition demo_server (r : request) : response :=
  if req_num_of_rows r =? 1 then RespOk (demo_page 1)
  else RespOk (demo_page (req_page_no r)).

Definition demo_url : pystr := u "https://example.org/mixture".
Definition demo_key : option pystr := Some (u "KEY").
Definition world0 : world := mk_world [] [] [].

(** [C5] As stated, the claim fails: a dict holding the key ["item"] next
    to other keys is not the envelope [{"item": X}], yet it is not kept as
    is: it is replaced by its ["item"] value. *)
Lemma unwrap_item_counterexample :
  let item := JObj [(u "item", demo_rec "D1"); (u "seq", JInt 7)] in
  unwrap_item item = demo_rec "D1" ∧ demo_rec "D1" <> item.
Proof. split; [reflexivity | discriminate]. Qed.

(** [C5] (amended) Item unwrapping and order: an item [{"item": X}] yields
    exactly [X] (so it normalises as [X] does); more generally a dict that
    has the key ["item"] yields that value; every other item (a dict
    without ["item"], or a non-dict) is kept as is; and when every page is
    served, the result is the items of pages [1 .. total_pages], in page
    order and within-page order, after the probe and the page requests in
    that order. *)
Theorem fetch_all_from_api_unwrap_order (server : request -> response)
    (url : pystr) (rows : Z) (sk dk : option pystr) (first_page : json)
    (tc P : Z) (its : Z -> list json) (w : world) :
  0 < rows ->
  server (mk_request url (py_or sk dk) 1 1) = RespOk first_page ->
  probe_total_count first_page = inr (JInt tc) ->
  total_pages_of tc rows = inr P ->
  (forall p, 1 <= p <= P -> exists data,
     server (mk_request url (py_or sk dk) p rows) = RespOk data ∧
     page_items data = inr (its p)) ->
  (forall x, unwrap_item (JObj [(u "item", x)]) = x) ∧
  (forall kvs x, assoc kvs (u "item") = Some x -> unwrap_item (JObj kvs) = x) ∧
  (forall kvs, assoc kvs (u "item") = None ->
     unwrap_item (JObj kvs) = JObj kvs) ∧
  (forall j, (forall kvs, j <> JObj kvs) -> unwrap_item j = j) ∧
  fetch_all_from_api server url rows sk dk w =
  (inr (concat (map (fun p => map unwrap_item (its p))
                  (py_range 1 (P + 1)))),
   mk_world (w_requests w ++ mk_request url (py_or sk dk) 1 1 ::
               map (fun p => mk_request url (py_or sk dk) p rows)
                 (py_range 1 (P + 1)))
     (w_saved w) (w_upserts w)).
Proof.
  intros Hrows Hprobe Htc HP Hpages.
  split; [| split; [| split; [| split]]].
  - intros x. reflexivity.
  - intros kvs x Hx. simpl. by rewrite Hx.
  - intros kvs Hx. simpl. by rewrite Hx.
  - intros j Hj. destruct j; try reflexivity. by destruct (Hj kvs).
  - by apply (fetch_all_ok server url rows sk dk first_page tc P its w).
Qed.

(** The spec's three-page scenario: five records, in page order, whatever
    the wrapping of each page. *)
Lemma fetch_all_from_api_unwrap_order_witness :
  fst (fetch_all_from_api demo_server demo_url 2 None demo_key world0) =
  inr [demo_rec "D1"; demo_rec "D2"; demo_rec "D3"; demo_rec "D4";
       demo_rec "D5"].
Proof.
  rewrite (proj2 (proj2 (proj2 (proj2
    (fetch_all_from_api_unwrap_order demo_server demo_url 2 None demo_key
       (demo_page 1) 5 3 demo_items world0 ltac:(lia) eq_refl eq_refl eq_refl
       (fun p _ => ex_intro _ (demo_page p) (conj eq_refl eq_refl))))))).
  reflexivity.
Defined.

(** [C10] When the probe reports [totalCount = 0] (or the body or the
    field is missing, which defaults to [0]) and the page size is positive,
    only the probe is requested and the result is empty. *)
Theorem fetch_all_from_api_empty (server : request -> response)
    (url : pystr) (rows : Z) (sk dk : option pystr) (first_page : json)
    (w : world) :
  0 < rows ->
  server (mk_request url (py_or sk dk) 1 1) = RespOk first_page ->
  probe_total_count first_page = inr (JInt 0) ->
  fetch_all_from_api server url rows sk dk w =
    (inr [], mk_world (w_requests w ++ [mk_request url (py_or sk dk) 1 1])
               (w_saved w) (w_upserts w)) ∧
  (forall kvs, assoc kvs (u "body") = None ->
     probe_total_count (JObj kvs) = inr (JInt 0)) ∧
  (forall kvs body, assoc kvs (u "body") = Some (JObj body) ->
     assoc body (u "totalCount") = None ->
     probe_total_count (JObj kvs) = inr (JInt 0)).
Proof.
  intros Hrows Hprobe Htc. split; [| split].
  - rewrite (fetch_all_ok server url rows sk dk first_page 0 0 (fun _ => []) w
               Hrows Hprobe Htc).
    + reflexivity.
    + unfold total_pages_of. rewrite (proj2 (Z.ltb_lt 0 rows) Hrows).
      reflexivity.
    + intros p Hp. lia.
  - intros kvs H. unfold probe_total_count. simpl. by rewrite H.
  - intros kvs body H1 H2. unfold probe_total_count. simpl.
    rewrite H1. simpl. by rewrite H2.
Qed.

Lemma fetch_all_from_api_empty_witness :
  fetch_all_from_api (fun _ => RespOk (JObj [])) demo_url 500 None demo_key world0 =
    (inr [], mk_world [mk_request demo_url demo_key 1 1] [] []).
Proof.
  exact (proj1 (fetch_all_from_api_empty (fun _ => RespOk (JObj [])) demo_url
           500 None demo_key (JObj []) world0 ltac:(lia) eq_refl eq_refl)).
Defined.

(** [C9] Configuration before I/O: when the base URL or the service key
    is unset or empty, [fetch_mixture_data] raises the configuration
    [ValueError] without issuing any request, writing any file or making
    any upsert: the world is unchanged. *)
Theorem fetch_mixture_data_config_first (server : request -> response)
    (writable : pystr -> list json -> bool)
    (cfg : config) (save_path : option pystr) (w : world) :
  str_truthy (MIXTURE_API_BASE_URL cfg) = false \/
  str_truthy (MIXTURE_API_SERVICE_KEY cfg) = false ->
  exists msg, fetch_mixture_data server writable cfg save_path w = (inl (ValueError msg), w).
Proof.
  intros H. unfold fetch_mixture_data.
  destruct (str_truthy (MIXTURE_API_BASE_URL cfg)) eqn:Eu.
  - destruct H as [H|H]; [discriminate |]. rewrite H. simpl. eauto.
  - simpl. eauto.
Qed.

Lemma fetch_mixture_data_config_first_witness :
  exists msg,
    fetch_mixture_data demo_server (fun _ _ => true) (mk_config (Some []) demo_key 500)
      None world0 = (inl (ValueError msg), world0).
Proof.
  apply (fetch_mixture_data_config_first demo_server (fun _ _ => true)
           (mk_config (Some []) demo_key 500) None world0).
  left. reflexivity.
Defined.

(** ** Facts about the batched upsert *)










(** The spec's example: 1201 rows in batches of 500 give three upsert calls
    of 500, 500 and 201 rows. *)
Example upsert_1201_sizes :
  map (fun tb => length tb.2)
    (w_upserts (snd (upsert_to_supabase (fun _ _ => true)
                       (replicate 1201 (∅ : out_record)) (u "mixtures") 500 world0))) =
  [500; 500; 201]%nat.
Proof. vm_compute. reflexivity. Qed.

(** An empty input makes no upsert call. *)
Example upsert_empty_no_call :
  upsert_to_supabase (fun _ _ => true) [] (u "mixtures") 500 world0 = (inr tt, world0).
Proof. reflexivity. Qed.

(** ** Further properties of the normaliser *)

(** A string with no whitespace at either end. *)
Definition trimmed (s : pystr) : Prop :=
  (forall c, head s = Some c -> is_space_cp c = false) ∧
  (forall c, last s = Some c -> is_space_cp c = false).

Lemma lstrip_head (s : pystr) (c : N) :
  head (lstrip s) = Some c -> is_space_cp c = false.
Proof.
  induction s as [|a s IH]; simpl; [discriminate |].
  destruct (is_space_cp a) eqn:E; [exact IH |].
  simpl. intros [= <-]. exact E.
Qed.

Lemma lstrip_drop (s : pystr) : exists k, lstrip s = drop k s.
Proof.
  induction s as [|a s [k IH]]; simpl; [by exists 0%nat |].
  destruct (is_space_cp a); [by exists (S k) | by exists 0%nat].
Qed.

Lemma last_drop (l : pystr) (k : nat) (c : N) :
  last (drop k l) = Some c -> last l = Some c.
Proof.
  revert k. induction l as [|a l IH]; intros k; [by rewrite drop_nil |].
  destruct k as [|k]; [done |]. simpl. intros H.
  apply IH in H. destruct l; [discriminate | exact H].
Qed.

Lemma last_rev (l : pystr) : last (rev l) = head l.
Proof. destruct l as [|a l]; [done |]. simpl. apply last_snoc. Qed.

Lemma head_rev (l : pystr) : head (rev l) = last l.
Proof. rewrite <- (rev_involutive l) at 2. by rewrite last_rev. Qed.

Lemma py_strip_trimmed (s : pystr) : trimmed (py_strip s).
Proof.
  unfold py_strip. split; intros c.
  - rewrite head_rev. destruct (lstrip_drop (rev (lstrip s))) as [k ->].
    intros H. apply last_drop in H. rewrite last_rev in H.
    by apply lstrip_head in H.
  - rewrite last_rev. apply lstrip_head.
Qed.

Lemma trimmed_strip_id (s : pystr) : trimmed s -> py_strip s = s.
Proof.
  intros [Hh Hl]. unfold py_strip.
  assert (E1 : lstrip s = s).
  { destruct s as [|a s]; [done |]. simpl. by rewrite (Hh a eq_refl). }
  rewrite E1.
  assert (E2 : lstrip (rev s) = rev s).
  { destruct (rev s) as [|a r] eqn:Er; [done |]. simpl.
    rewrite (Hl a); [done |]. by rewrite <- head_rev, Er. }
  by rewrite E2, rev_involutive.
Qed.

Lemma parse_date_trimmed (v : scalar) (s : pystr) :
  _parse_date_yyyymmdd v = Some s -> trimmed s.
Proof.
  unfold _parse_date_yyyymmdd. destruct (negb (py_truthy v)); [discriminate |].
  pose proof (py_strip_trimmed (py_str v)) as [Hh Hl].
  set (t := py_strip (py_str v)) in *.
  destruct (Nat.eqb (length t) 8 && py_isdigit t) eqn:E; intros [= <-];
    [| by split].
  apply andb_true_iff in E as [E _]. apply Nat.eqb_eq in E.
  destruct t as [|c0 [|c1 [|c2 [|c3 [|c4 [|c5 [|c6 [|c7 [|c8 t]]]]]]]]];
    simpl in E; try discriminate.
  split; intros c H; [apply Hh | apply Hl]; exact H.
Qed.

Lemma clean_value_trimmed (k : pystr) (v : scalar) (s : pystr) :
  clean_value k v = OStr s -> trimmed s.
Proof.
  unfold clean_value. case_bool_decide.
  - destruct (_parse_date_yyyymmdd v) eqn:E; intros [= <-].
    by eapply parse_date_trimmed.
  - case_bool_decide; [by destruct (_ || _) |].
    destruct v; intros [= <-]; try apply py_strip_trimmed.
    split; intros c Hc; discriminate.
Qed.

(** [X1] Every string in a normalised record has no whitespace at either
    end: plain columns are stripped, and so is [NOTIFICATION_DATE], also
    when it is reformatted. *)
Theorem clean_record_strings_trimmed (raw : raw_record) (k : pystr) (s : pystr) :
  clean_record raw !! k = Some (OStr s) -> trimmed s.
Proof.
  rewrite clean_record_lookup. case_bool_decide; [| discriminate].
  intros [= Hv]. by eapply clean_value_trimmed.
Qed.

Lemma clean_record_strings_trimmed_witness :
  clean_record (date_raw (SStr (u " 20230115 "))) !! NOTIFICATION_DATE =
    Some (OStr (u "2023-01-15")) ∧ trimmed (u "2023-01-15").
Proof.
  split; [vm_compute; reflexivity |].
  apply (clean_record_strings_trimmed (date_raw (SStr (u " 20230115 ")))
           NOTIFICATION_DATE).
  vm_compute. reflexivity.
Defined.

(** [X2] Keys that are neither a column name nor its lower-case spelling
    (for instance a mixed-case spelling such as "Ingr_Code", or an
    unrelated field) are ignored: adding one to the input does not change
    the normalised record. *)
Theorem clean_record_ignores_other_keys (raw : raw_record) (k : pystr) (v : scalar) :
  Forall (fun col => k <> col ∧ k <> py_lower col) MIXTURE_COLUMNS ->
  clean_record (<[k := v]> raw) = clean_record raw.
Proof.
  intros Hk. rewrite Forall_forall in Hk.
  apply map_eq. intros col. rewrite !clean_record_lookup.
  case_bool_decide as Hc; [| done].
  destruct (Hk col Hc) as [H1 H2].
  assert (Hup : py_upper col = col).
  { pose proof cols_upper_id as F. rewrite Forall_forall in F. auto. }
  unfold resolve. rewrite Hup, !lookup_insert_ne by congruence. reflexivity.
Qed.

Lemma clean_record_ignores_other_keys_witness :
  clean_record (<[u "Ingr_Code" := SStr (u "D1")]> ∅) = clean_record ∅.
Proof.
  apply clean_record_ignores_other_keys.
  apply (bool_decide_unpack _). vm_compute. reflexivity.
Defined.

(** A normalised value read back as an input value. *)
Definition to_scalar (o : outval) : scalar :=
  match o with
  | OStr s => SStr s
  | ONone => SNone
  | OBool b => SBool b
  end.

Lemma clean_value_idempotent (k : pystr) (v : scalar) :
  clean_value k v <> OStr [] \/ k <> NOTIFICATION_DATE ->
  clean_value k (to_scalar (clean_value k v)) = clean_value k v.
Proof.
  intros Hne. destruct (decide (k = NOTIFICATION_DATE)) as [->|Hnd].
  - destruct Hne as [Hne|Hne]; [| done].
    unfold clean_value in *. rewrite !bool_decide_true in * by done.
    destruct (_parse_date_yyyymmdd v) as [s|] eqn:E; [| reflexivity].
    cbn [to_scalar]. unfold _parse_date_yyyymmdd at 1.
    assert (Hs : s <> []) by congruence.
    assert (Ht : py_truthy (SStr s) = true).
    { simpl. by rewrite bool_decide_false. }
    rewrite Ht. cbn [negb py_str].
    rewrite trimmed_strip_id by (eapply parse_date_trimmed; exact E).
    unfold _parse_date_yyyymmdd in E.
    destruct (negb (py_truthy v)); [discriminate |].
    destruct (Nat.eqb (length (py_strip (py_str v))) 8 &&
              py_isdigit (py_strip (py_str v))) eqn:E2.
    + injection E as <-.
      apply andb_true_iff in E2 as [E2 _]. apply Nat.eqb_eq in E2.
      set (t := py_strip (py_str v)) in *.
      destruct t as [|c0 [|c1 [|c2 [|c3 [|c4 [|c5 [|c6 [|c7 [|c8 t']]]]]]]]];
        simpl in E2; try discriminate.
      reflexivity.
    + injection E as <-. by rewrite E2.
  - unfold clean_value. rewrite !(bool_decide_false (k = NOTIFICATION_DATE)) by done.
    case_bool_decide as Hd.
    + destruct (py_eq v (SStr normal_token) || py_in v del_yn_falsy); reflexivity.
    + destruct v; cbn [to_scalar py_str];
        try (f_equal; apply trimmed_strip_id, py_strip_trimmed).
Qed.

Lemma resolve_cleaned (raw : raw_record) (k : pystr) :
  k ∈ MIXTURE_COLUMNS ->
  resolve (to_scalar <$> clean_record raw) k = to_scalar (clean_value k (resolve raw k)).
Proof.
  intros Hk. unfold resolve.
  rewrite lookup_fmap, clean_record_lookup, bool_decide_true by done.
  reflexivity.
Qed.

(** [X3] Normalising is idempotent: reading a normalised record back as
    input and normalising it again gives the same record, unless its
    [NOTIFICATION_DATE] is the empty string (a whitespace-only date), which
    the second pass turns into null, everything else staying the same. *)
Theorem clean_record_idempotent (raw : raw_record) :
  (clean_record raw !! NOTIFICATION_DATE <> Some (OStr []) ->
   clean_record (to_scalar <$> clean_record raw) = clean_record raw) ∧
  (clean_record raw !! NOTIFICATION_DATE = Some (OStr []) ->
   clean_record (to_scalar <$> clean_record raw) =
   <[NOTIFICATION_DATE := ONone]> (clean_record raw)).
Proof.
  split.
  - intros Hnd. apply map_eq. intros k.
    rewrite (clean_record_lookup (to_scalar <$> _)), (clean_record_lookup raw).
    case_bool_decide as Hk; [| done]. f_equal.
    rewrite resolve_cleaned by done. apply clean_value_idempotent.
    destruct (decide (k = NOTIFICATION_DATE)) as [->|]; [left | by right].
    intros Hc. apply Hnd. rewrite clean_record_lookup, bool_decide_true by done.
    by rewrite Hc.
  - intros Hd. apply map_eq. intros k.
    destruct (decide (k = NOTIFICATION_DATE)) as [->|Hk].
    + rewrite lookup_insert_eq, clean_record_lookup, bool_decide_true
        by exact NOTIFICATION_DATE_col.
      rewrite resolve_cleaned by exact NOTIFICATION_DATE_col.
      rewrite clean_record_lookup, bool_decide_true in Hd by exact NOTIFICATION_DATE_col.
      injection Hd as Hd. rewrite Hd. reflexivity.
    + rewrite lookup_insert_ne by congruence.
      rewrite (clean_record_lookup (to_scalar <$> _)), (clean_record_lookup raw).
      case_bool_decide as Hc; [| done]. f_equal.
      rewrite resolve_cleaned by done. apply clean_value_idempotent. by right.
Qed.

Lemma clean_record_idempotent_witness :
  clean_record (to_scalar <$> clean_record (date_raw (SStr (u "20230115")))) =
  clean_record (date_raw (SStr (u "20230115"))) ∧
  clean_record (to_scalar <$> clean_record (date_raw (SStr (u "   ")))) =
  <[NOTIFICATION_DATE := ONone]> (clean_record (date_raw (SStr (u "   ")))).
Proof.
  split.
  - apply (proj1 (clean_record_idempotent (date_raw (SStr (u "20230115"))))).
    vm_compute. discriminate.
  - apply (proj2 (clean_record_idempotent (date_raw (SStr (u "   "))))).
    vm_compute. reflexivity.
Defined.

(** ** Further properties of the Collector *)

(** What one page request gives the loop: its items, or the error raised. *)
Definition decode_page (r : response) : py_error + list json :=
  match r with
  | RespOk data => page_items data
  | RespHttpError => inl HTTPError
  | RespNetworkError => inl NetworkError
  | RespNotJson => inl JSONDecodeError
  end.

Lemma py_range_cons (a b : Z) : a < b -> py_range a b = a :: py_range (a + 1) b.
Proof.
  intros Hab. unfold py_range.
  replace (Z.to_nat (b - a)) with (S (Z.to_nat (b - (a + 1)))) by lia.
  cbn [seq map]. f_equal; [lia |].
  rewrite <- seq_shift, map_map. apply map_ext. intros i. lia.
Qed.

Lemma py_range_app (a b c : Z) :
  a <= b <= c -> py_range a c = py_range a b ++ py_range b c.
Proof.
  remember (Z.to_nat (b - a)) as n eqn:En. revert a En.
  induction n as [|n IH]; intros a En Hab.
  - assert (a = b) as -> by lia. unfold py_range at 2.
    by rewrite Z.sub_diag.
  - rewrite (py_range_cons a c), (py_range_cons a b) by lia.
    rewrite (IH (a + 1)) by lia. reflexivity.
Qed.

Lemma fetch_pages_fail (server : request -> response) (url : pystr) (rows : Z)
    (key dk : option pystr) (its : Z -> list json) (ps1 : list Z) (p : Z)
    (ps2 : list Z) (acc : list json) (e : py_error) (w : world) :
  (forall q, q ∈ ps1 -> exists data,
     server (mk_request url (py_or key dk) q rows) = RespOk data ∧
     page_items data = inr (its q)) ->
  decode_page (server (mk_request url (py_or key dk) p rows)) = inl e ->
  fetch_pages server url rows key dk (ps1 ++ p :: ps2) acc w =
  (inl e, mk_world (w_requests w ++ map (fun q => mk_request url (py_or key dk) q rows) ps1
                     ++ [mk_request url (py_or key dk) p rows])
            (w_saved w) (w_upserts w)).
Proof.
  revert acc w. induction ps1 as [|q ps1 IH]; intros acc w Hok Hfail.
  - cbn [app fetch_pages map]. unfold bind at 1, fetch_page, bind at 1, log_request.
    destruct (server _) as [data| | |] eqn:Es; simpl in Hfail.
    + unfold ret, bind, lift. rewrite Hfail. reflexivity.
    + injection Hfail as <-. reflexivity.
    + injection Hfail as <-. reflexivity.
    + injection Hfail as <-. reflexivity.
  - destruct (Hok q) as [data [Hs Hi]]; [set_solver |].
    cbn [app fetch_pages]. unfold bind at 1, fetch_page, bind at 1, log_request.
    rewrite Hs. unfold ret, bind, lift. rewrite Hi.
    rewrite IH; [| intros q' Hq'; apply Hok; set_solver | exact Hfail].
    cbn [map w_requests w_saved w_upserts]. by rewrite <- !app_assoc.
Qed.

Lemma fetch_all_after_probe (server : request -> response) (url : pystr)
    (rows : Z) (sk dk : option pystr) (first_page : json) (tc P : Z) (w : world) :
  0 < rows ->
  server (mk_request url (py_or sk dk) 1 1) = RespOk first_page ->
  probe_total_count first_page = inr (JInt tc) ->
  total_pages_of tc rows = inr P ->
  fetch_all_from_api server url rows sk dk w =
  fetch_pages server url rows (py_or sk dk) dk (py_range 1 (P + 1)) []
    (mk_world (w_requests w ++ [mk_request url (py_or sk dk) 1 1])
       (w_saved w) (w_upserts w)).
Proof.
  intros Hrows Hprobe Htc HP.
  unfold fetch_all_from_api, bind at 1, fetch_page, bind at 1, log_request.
  rewrite py_or_idem, Hprobe.
  unfold ret at 1, bind at 1, lift at 1. rewrite Htc.
  unfold total_pages_of in HP.
  rewrite (proj2 (Z.ltb_lt 0 rows) Hrows) in HP |- *. cbv [bind lift ret as_number].
  rewrite HP. reflexivity.
Qed.

(** [X4] A failing page aborts the whole collection: if pages [1 .. p-1]
    are served and page [p] (within the page count) fails (an HTTP error, a
    network error, or a body that cannot be read), [fetch_all_from_api]
    raises that error, returns no partial result, and has requested exactly
    the probe and pages [1 .. p]. *)
Theorem fetch_all_from_api_aborts (server : request -> response) (url : pystr)
    (rows : Z) (sk dk : option pystr) (first_page : json) (tc P : Z)
    (its : Z -> list json) (p : Z) (e : py_error) (w : world) :
  0 < rows ->
  server (mk_request url (py_or sk dk) 1 1) = RespOk first_page ->
  probe_total_count first_page = inr (JInt tc) ->
  total_pages_of tc rows = inr P ->
  1 <= p <= P ->
  (forall q, 1 <= q < p -> exists data,
     server (mk_request url (py_or sk dk) q rows) = RespOk data ∧
     page_items data = inr (its q)) ->
  decode_page (server (mk_request url (py_or sk dk) p rows)) = inl e ->
  fetch_all_from_api server url rows sk dk w =
  (inl e, mk_world (w_requests w ++ mk_request url (py_or sk dk) 1 1 ::
                      map (fun q => mk_request url (py_or sk dk) q rows)
                        (py_range 1 (p + 1)))
            (w_saved w) (w_upserts w)).
Proof.
  intros Hrows Hprobe Htc HP Hp Hok Hfail.
  rewrite (fetch_all_after_probe server url rows sk dk first_page tc P w Hrows Hprobe Htc HP).
  rewrite (py_range_app 1 p (P + 1)) by lia.
  rewrite (py_range_cons p) by lia.
  rewrite (fetch_pages_fail server url rows (py_or sk dk) dk its
             (py_range 1 p) p (py_range (p + 1) (P + 1)) [] e).
  - rewrite (py_range_app 1 p (p + 1)) by lia.
    rewrite (py_range_cons p (p + 1)) by lia.
    unfold py_range at 3. rewrite Z.sub_diag.
    cbn [w_requests w_saved w_upserts]. rewrite py_or_idem, map_app, <- !app_assoc.
    reflexivity.
  - intros q Hq. rewrite py_or_idem. apply Hok. apply py_range_elem in Hq. lia.
  - rewrite py_or_idem. exact Hfail.
Qed.

Lemma fetch_all_from_api_aborts_witness :
  fetch_all_from_api
    (fun r => if req_page_no r =? 2 then RespHttpError else demo_server r)
    demo_url 2 None demo_key world0 =
  (inl HTTPError,
   mk_world [mk_request demo_url demo_key 1 1; mk_request demo_url demo_key 1 2;
             mk_request demo_url demo_key 2 2] [] []).
Proof.
  rewrite (fetch_all_from_api_aborts
    (fun r => if req_page_no r =? 2 then RespHttpError else demo_server r)
    demo_url 2 None demo_key (demo_page 1) 5 3 demo_items 2 HTTPError world0);
    [reflexivity | lia | reflexivity | reflexivity | reflexivity | lia | | reflexivity].
  intros q Hq. assert (q = 1) as -> by lia.
  exists (demo_page 1). split; reflexivity.
Defined.



(** [X6] A non-positive page size: whatever [totalCount] holds (it is then
    never used, and need not be a number), [fetch_all_from_api] requests
    exactly one data page, page [1] with that page size, and returns its
    unwrapped items. *)
Theorem fetch_all_from_api_nonpositive_rows (server : request -> response)
    (url : pystr) (rows : Z) (sk dk : option pystr) (first_page : json)
    (total_count : json) (data : json) (items : list json) (w : world) :
  rows <= 0 ->
  server (mk_request url (py_or sk dk) 1 1) = RespOk first_page ->
  probe_total_count first_page = inr total_count ->
  server (mk_request url (py_or sk dk) 1 rows) = RespOk data ->
  page_items data = inr items ->
  fetch_all_from_api server url rows sk dk w =
  (inr (map unwrap_item items),
   mk_world (w_requests w ++ [mk_request url (py_or sk dk) 1 1;
                              mk_request url (py_or sk dk) 1 rows])
     (w_saved w) (w_upserts w)).
Proof.
  intros Hrows Hprobe Htc Hs Hi.
  unfold fetch_all_from_api, bind at 1, fetch_page, bind at 1, log_request.
  rewrite py_or_idem, Hprobe.
  unfold ret at 1, bind at 1, lift at 1. rewrite Htc.
  rewrite (proj2 (Z.ltb_ge 0 rows) Hrows). cbv [bind ret].
  change (py_range 1 (1 + 1)) with [1].
  rewrite (fetch_pages_ok server url rows (py_or sk dk) dk (fun _ => items));
    [| intros p Hp; apply list_elem_of_singleton in Hp as ->;
       rewrite py_or_idem; eauto].
  cbn [w_requests w_saved w_upserts map concat]. rewrite py_or_idem, !app_nil_r.
  by rewrite <- app_assoc.
Qed.

Lemma fetch_all_from_api_nonpositive_rows_witness :
  fetch_all_from_api
    (fun r => if req_num_of_rows r =? 1
              then RespOk (JObj [(u "body", JObj [(u "totalCount", JNull)])])
              else RespOk (demo_page 1))
    demo_url 0 None demo_key world0 =
  (inr [demo_rec "D1"; demo_rec "D2"],
   mk_world [mk_request demo_url demo_key 1 1; mk_request demo_url demo_key 1 0] [] []).
Proof.
  apply (fetch_all_from_api_nonpositive_rows _ demo_url 0 None demo_key
           (JObj [(u "body", JObj [(u "totalCount", JNull)])]) JNull (demo_page 1)
           (demo_items 1) world0);
    [lia | reflexivity | reflexivity | reflexivity | reflexivity].
Defined.

(** [X7] Items held in a dict: when every page's [body.items] is a JSON
    object, iterating it yields its keys, so [fetch_all_from_api] returns
    the keys of each page's object as strings, in order, and none of the
    values; a page shaped [{"items": {"item": [...]}}] contributes only the
    string ["item"]. *)
Theorem fetch_all_from_api_dict_items (server : request -> response)
    (url : pystr) (rows : Z) (sk dk : option pystr) (first_page : json)
    (tc P : Z) (kvs : Z -> list (pystr * json)) (w : world) :
  0 < rows ->
  server (mk_request url (py_or sk dk) 1 1) = RespOk first_page ->
  probe_total_count first_page = inr (JInt tc) ->
  total_pages_of tc rows = inr P ->
  (forall p, 1 <= p <= P -> exists data body,
     server (mk_request url (py_or sk dk) p rows) = RespOk data ∧
     dict_get data (u "body") (JObj []) = inr body ∧
     dict_get body (u "items") (JArr []) = inr (JObj (kvs p))) ->
  fst (fetch_all_from_api server url rows sk dk w) =
  inr (concat (map (fun p => map (fun kv => JStr kv.1) (kvs p))
                 (py_range 1 (P + 1)))).
Proof.
  intros Hrows Hprobe Htc HP Hpages.
  rewrite (fetch_all_ok server url rows sk dk first_page tc P
             (fun p => map (fun kv => JStr kv.1) (kvs p)) w Hrows Hprobe Htc HP).
  - cbn [fst]. do 2 f_equal. apply map_ext. intros p.
    rewrite map_map. reflexivity.
  - intros p Hp. destruct (Hpages p Hp) as [data [body [Hs [Hb Hi]]]].
    exists data. split; [exact Hs |].
    unfold page_items. rewrite Hb, Hi. reflexivity.
Qed.

Lemma fetch_all_from_api_dict_items_witness :
  fst (fetch_all_from_api
    (fun r => RespOk (JObj [(u "body", JObj [(u "totalCount", JInt 2);
       (u "items", JObj [(u "item", JArr [demo_rec "D1"; demo_rec "D2"])])])]))
    demo_url 10 None demo_key world0) = inr [JStr (u "item")].
Proof.
  apply (fetch_all_from_api_dict_items _ demo_url 10 None demo_key
    (JObj [(u "body", JObj [(u "totalCount", JInt 2);
       (u "items", JObj [(u "item", JArr [demo_rec "D1"; demo_rec "D2"])])])])
    2 1 (fun _ => [(u "item", JArr [demo_rec "D1"; demo_rec "D2"])]) world0);
    [lia | reflexivity | reflexivity | reflexivity |].
  intros p Hp. do 2 eexists. split; [reflexivity | split; reflexivity].
Defined.

Definition to_endpoint (url : pystr) (key : option pystr) (q : request) : Prop :=
  req_url q = url ∧ req_service_key q = key.

Lemma fetch_page_world (server : request -> response) (url : pystr) (p n : Z)
    (key dk : option pystr) (w : world) (r : py_error + json) (w' : world) :
  fetch_page server url p n key dk w = (r, w') ->
  w' = mk_world (w_requests w ++ [mk_request url (py_or key dk) p n])
         (w_saved w) (w_upserts w).
Proof.
  unfold fetch_page, bind, log_request.
  destruct (server _); cbv [ret raise]; by intros [= _ <-].
Qed.

Lemma fetch_pages_world (server : request -> response) (url : pystr) (rows : Z)
    (key dk : option pystr) (pages : list Z) (acc : list json) (w : world)
    (r : py_error + list json) (w' : world) :
  fetch_pages server url rows key dk pages acc w = (r, w') ->
  w_saved w' = w_saved w ∧ w_upserts w' = w_upserts w ∧
  exists rs, w_requests w' = w_requests w ++ rs ∧
             Forall (to_endpoint url (py_or key dk)) rs.
Proof.
  revert acc w. induction pages as [|p pages IH]; intros acc w.
  - cbv [fetch_pages ret]. intros [= _ <-]. split; [done | split; [done |]].
    exists []. by rewrite app_nil_r.
  - cbn [fetch_pages]. unfold bind at 1.
    destruct (fetch_page server url p rows key dk w) as [[e|data] w1] eqn:E1;
      apply fetch_page_world in E1; subst w1.
    + intros [= _ <-]. split; [done | split; [done |]].
      eexists. split; [reflexivity |]. repeat constructor.
    + unfold bind at 1, lift. destruct (page_items data) as [e|items].
      * intros [= _ <-]. split; [done | split; [done |]].
        eexists. split; [reflexivity |]. repeat constructor.
      * intros Hrun. apply IH in Hrun as (Hs & Hu & rs & Hr & Hf).
        cbn [w_requests w_saved w_upserts] in *.
        split; [done | split; [done |]].
        exists (mk_request url (py_or key dk) p rows :: rs).
        split; [by rewrite Hr, <- app_assoc |].
        constructor; [split; reflexivity | exact Hf].
Qed.

Lemma fetch_all_from_api_world (server : request -> response)
    (url : pystr) (rows : Z) (sk dk : option pystr) (w : world)
    (r : py_error + list json) (w' : world) :
  fetch_all_from_api server url rows sk dk w = (r, w') ->
  w_saved w' = w_saved w ∧ w_upserts w' = w_upserts w ∧
  exists rs, w_requests w' = w_requests w ++ mk_request url (py_or sk dk) 1 1 :: rs ∧
             Forall (to_endpoint url (py_or sk dk)) rs.
Proof.
  unfold fetch_all_from_api. unfold bind at 1.
  destruct (fetch_page server url 1 1 (py_or sk dk) dk w) as [[e|fp] w1] eqn:E1;
    apply fetch_page_world in E1; subst w1; rewrite py_or_idem.
  - intros [= _ <-]. split; [done | split; [done |]].
    exists []. split; [reflexivity | constructor].
  - unfold bind at 1, lift at 1. destruct (probe_total_count fp) as [e|tc].
    { intros [= _ <-]. split; [done | split; [done |]].
      exists []. split; [reflexivity | constructor]. }
    unfold bind at 1.
    assert (Hpages : forall n w0, fetch_pages server url rows (py_or sk dk) dk
                       (py_range 1 (n + 1)) [] w0 = (r, w') ->
              w0 = mk_world (w_requests w ++ [mk_request url (py_or sk dk) 1 1])
                     (w_saved w) (w_upserts w) ->
              w_saved w' = w_saved w ∧ w_upserts w' = w_upserts w ∧
              exists rs, w_requests w' = w_requests w ++ mk_request url (py_or sk dk) 1 1 :: rs ∧
                         Forall (to_endpoint url (py_or sk dk)) rs).
    { intros n w0 Hrun ->. apply fetch_pages_world in Hrun as (Hs & Hu & rs & Hr & Hf).
      rewrite py_or_idem in Hf. cbn [w_requests w_saved w_upserts] in *.
      split; [done | split; [done |]]. exists rs.
      split; [by rewrite Hr, <- app_assoc | exact Hf]. }
    destruct (0 <? rows).
    + cbv [bind lift ret]. destruct (as_number tc) as [e|n].
      * intros [= _ <-]. split; [done | split; [done |]].
        exists []. split; [reflexivity | constructor].
      * destruct (py_ceil_true_div n rows) as [e|P].
        -- intros [= _ <-]. split; [done | split; [done |]].
           exists []. split; [reflexivity | constructor].
        -- intros Hrun. exact (Hpages _ _ Hrun eq_refl).
    + cbv [ret]. intros Hrun. exact (Hpages _ _ Hrun eq_refl).
Qed.

(** [X8] The Collector only reads: whatever the upstream answers and
    whether it succeeds or raises, [fetch_all_from_api] writes no snapshot
    and upserts nothing; it only appends requests, the first of them the
    probe (page 1, one row), and every request goes to [base_url] with the
    resolved key [service_key or MIXTURE_API_SERVICE_KEY]. *)
Theorem fetch_all_from_api_only_requests (server : request -> response)
    (url : pystr) (rows : Z) (sk dk : option pystr) (w : world)
    (r : py_error + list json) (w' : world) :
  fetch_all_from_api server url rows sk dk w = (r, w') ->
  w_saved w' = w_saved w ∧ w_upserts w' = w_upserts w ∧
  exists rs, w_requests w' = w_requests w ++ mk_request url (py_or sk dk) 1 1 :: rs ∧
             Forall (to_endpoint url (py_or sk dk)) rs.
Proof. apply fetch_all_from_api_world. Qed.

Lemma fetch_all_from_api_only_requests_witness :
  w_saved (snd (fetch_all_from_api demo_server demo_url 2 None demo_key world0)) = [] ∧
  w_upserts (snd (fetch_all_from_api demo_server demo_url 2 None demo_key world0)) = [].
Proof.
  destruct (fetch_all_from_api_only_requests demo_server demo_url 2 None demo_key world0
    (fst (fetch_all_from_api demo_server demo_url 2 None demo_key world0))
    (snd (fetch_all_from_api demo_server demo_url 2 None demo_key world0)))
    as (Hs & Hu & _); [reflexivity |].
  split; assumption.
Defined.

(** [X9] The snapshot of [fetch_mixture_data]: it upserts nothing; when
    it raises (a missing setting, a failed collection, a failed write) or
    [save_path] is falsy, no snapshot is recorded; when it returns items
    and [save_path] is truthy, the write to that path succeeded and exactly
    one snapshot, holding the very items returned, was recorded. *)
Theorem fetch_mixture_data_snapshot (server : request -> response)
    (writable : pystr -> list json -> bool) (cfg : config)
    (save_path : option pystr) (w : world) (r : py_error + list json) (w' : world) :
  fetch_mixture_data server writable cfg save_path w = (r, w') ->
  w_upserts w' = w_upserts w ∧
  (forall e, r = inl e -> w_saved w' = w_saved w) ∧
  (forall items, r = inr items -> str_truthy save_path = false ->
     w_saved w' = w_saved w) ∧
  (forall items, r = inr items -> str_truthy save_path = true ->
     exists path, save_path = Some path ∧ writable path items = true ∧
       w_saved w' = w_saved w ++ [(path, items)]).
Proof.
  unfold fetch_mixture_data.
  destruct (str_truthy (MIXTURE_API_BASE_URL cfg));
    [| cbv [raise]; intros [= <- <-];
       split; [done | split; [done | split; intros; discriminate]]].
  destruct (str_truthy (MIXTURE_API_SERVICE_KEY cfg));
    [| cbv [raise]; intros [= <- <-];
       split; [done | split; [done | split; intros; discriminate]]].
  cbn [negb]. unfold bind at 1.
  destruct (fetch_all_from_api server _ _ None _ w) as [[e|items] w1] eqn:E;
    apply fetch_all_from_api_world in E as (Hs & Hu & _).
  - intros [= <- <-]. split; [done | split; [done | split; intros; discriminate]].
  - destruct save_path as [path|].
    + destruct (str_truthy (Some path)) eqn:Et.
      * cbv [bind save_json ret]. destruct (writable path items) eqn:Ew.
        -- intros [= <- <-]. cbn [w_saved w_upserts].
           split; [done | split; [intros; discriminate | split]].
           ++ intros; discriminate.
           ++ intros items' [= <-] _. exists path. rewrite Hs. auto.
        -- intros [= <- <-]. split; [done | split; [done | split; intros; discriminate]].
      * cbv [ret]. intros [= <- <-].
        split; [done | split; [intros; discriminate | split; [done | intros; discriminate]]].
    + cbv [ret]. intros [= <- <-].
      split; [done | split; [intros; discriminate | split; [done | intros; discriminate]]].
Qed.

Lemma fetch_mixture_data_snapshot_witness :
  w_saved (snd (fetch_mixture_data demo_server (fun _ _ => true)
                  (mk_config (Some demo_url) demo_key 2) (Some (u "raw.json")) world0)) =
  [(u "raw.json", [demo_rec "D1"; demo_rec "D2"; demo_rec "D3"; demo_rec "D4"; demo_rec "D5"])].
Proof.
  destruct (fetch_mixture_data_snapshot demo_server (fun _ _ => true)
    (mk_config (Some demo_url) demo_key 2) (Some (u "raw.json")) world0
    (fst (fetch_mixture_data demo_server (fun _ _ => true)
            (mk_config (Some demo_url) demo_key 2) (Some (u "raw.json")) world0))
    (snd (fetch_mixture_data demo_server (fun _ _ => true)
            (mk_config (Some demo_url) demo_key 2) (Some (u "raw.json")) world0)))
    as (_ & _ & _ & Hsaved); [reflexivity |].
  destruct (Hsaved [demo_rec "D1"; demo_rec "D2"; demo_rec "D3"; demo_rec "D4"; demo_rec "D5"])
    as (path & Hp & _ & Hs); [reflexivity | reflexivity |].
  rewrite Hs. injection Hp as <-. reflexivity.
Defined.





(** [X11] A non-positive batch size: for a non-empty input, a batch size of
    [0] raises [ZeroDivisionError], and a negative batch size computes a
    non-positive batch count, so [upsert_to_supabase] returns normally
    without a single upsert call; in both cases nothing is written. *)
Theorem upsert_to_supabase_nonpositive_batch
    (store : pystr -> list out_record -> bool) (rows : list out_record)
    (t : pystr) (B : Z) (w : world) :
  rows <> [] -> B <= 0 ->
  upsert_to_supabase store rows t B w =
  ((if B =? 0 then inl ZeroDivisionError else inr tt), w).
Proof.
  intros Hne HB. unfold upsert_to_supabase.
  destruct (Z.eqb_spec (Z.of_nat (length rows)) 0) as [E|E].
  { destruct rows; [done | simpl in E; lia]. }
  destruct (Z.eqb_spec B 0) as [->|HB0]; [reflexivity |].
  assert (Hc : ceil_div (Z.of_nat (length rows)) B <= 0).
  { unfold ceil_div.
    assert (0 <= (- Z.of_nat (length rows)) / B); [| lia].
    rewrite <- (Z.div_opp_opp (- Z.of_nat (length rows)) B) by lia.
    rewrite Z.opp_involutive. apply Z.div_pos; lia. }
  unfold py_range.
  replace (Z.to_nat (ceil_div (Z.of_nat (length rows)) B - 0)) with 0%nat by lia.
  reflexivity.
Qed.

Lemma upsert_to_supabase_nonpositive_batch_witness :
  upsert_to_supabase (fun _ _ => true) [∅] (u "mixtures") (-1) world0 = (inr tt, world0).
Proof.
  exact (upsert_to_supabase_nonpositive_batch (fun _ _ => true) [∅] (u "mixtures") (-1)
           world0 ltac:(discriminate) ltac:(lia)).
Defined.

(** [X12] The date conversion loses nothing: it returns null exactly for
    a falsy value (null, [""], [0], [False]), and for a truthy value the
    converted date is either the stripped text unchanged, or the stripped
    text was eight digits and the result is ten characters with a dash
    (code point 45) at positions 4 and 7, whose removal gives the eight
    digits back. Month and day are not checked, so ["20231399"] becomes
    ["2023-13-99"]. *)
Theorem parse_date_round_trip (v : scalar) :
  match _parse_date_yyyymmdd v with
  | None => py_truthy v = false
  | Some r =>
      py_truthy v = true ∧
      (r = py_strip (py_str v) ∨
       (py_isdigit (py_strip (py_str v)) = true ∧ length r = 10%nat ∧
        r !! 4%nat = Some 45%N ∧ r !! 7%nat = Some 45%N ∧
        take 4 r ++ take 2 (drop 5 r) ++ drop 8 r = py_strip (py_str v)))
  end.
Proof.
  unfold _parse_date_yyyymmdd.
  destruct (py_truthy v) eqn:Ht; cbn [negb]; [| reflexivity].
  destruct (Nat.eqb_spec (length (py_strip (py_str v))) 8) as [Hl|Hl];
    destruct (py_isdigit (py_strip (py_str v))) eqn:Hd; cbn [andb];
    try (split; [reflexivity | left; reflexivity]).
  split; [reflexivity |]. right. split; [reflexivity |].
  destruct (py_strip (py_str v)) as [|a0 [|a1 [|a2 [|a3 [|a4 [|a5 [|a6 [|a7 [|a8 l]]]]]]]]];
    try discriminate Hl.
  repeat split; reflexivity.
Qed.

Lemma parse_date_round_trip_witness :
  _parse_date_yyyymmdd (SStr (u "20231399")) = Some (u "2023-13-99") ∧
  take 4 (u "2023-13-99") ++ take 2 (drop 5 (u "2023-13-99")) ++ drop 8 (u "2023-13-99") =
    py_strip (py_str (SStr (u "20231399"))).
Proof.
  pose proof (parse_date_round_trip (SStr (u "20231399"))) as H.
  vm_compute in H. vm_compute.
  destruct H as [_ [H | H]]; [discriminate H | split; reflexivity].
Defined.
